(** * Incremental order selection of OpenNN ([opennn/incremental_order.cpp])

    A shallow embedding of the [IncrementalOrder] class: its two setters, the
    search loop [perform_order_selection], and the XML persistence
    ([to_XML], [from_XML], [load]).

    - [size_t] is a 64-bit unsigned integer, modelled as [Z] with the
      wrap-around written out;
    - [double] is IEEE 754 binary64, modelled by the primitive floats;
    - text is [string]; the stream insertions and the C conversions used by
      the persistence code ([operator<<], [atoi], [atof]) are modelled on
      their glibc/libstdc++ behaviour. *)

From Stdlib Require Import ZArith List String Ascii Bool Lia.
From Stdlib Require Import Floats.
Import ListNotations.

Set Warnings "-inexact-float,-register-all".

Local Open Scope string_scope.
Local Open Scope Z_scope.

(* ================================================================= *)
(** ** Machine integers *)

Module SizeT.

Definition modulus : Z := 2 ^ 64.

(** Conversion of an integer value to [size_t]. *)
Definition wrap (z : Z) : Z := z mod modulus.

Definition add (a b : Z) : Z := wrap (a + b).
Definition sub (a b : Z) : Z := wrap (a - b).

(** [x++] *)
Definition incr (a : Z) : Z := add a 1.

Definition in_range (z : Z) : Prop := 0 <= z < modulus.

End SizeT.

Module Int.

(** [int] is 32 bits wide; [long] is 64 bits wide. *)
Definition INT_MAX : Z := 2147483647.
Definition LONG_MAX : Z := 9223372036854775807.
Definition LONG_MIN : Z := -9223372036854775808.

(** Conversion [(int) x] of a [long]: the low 32 bits, read as signed. *)
Definition of_long (z : Z) : Z := (z + 2 ^ 31) mod 2 ^ 32 - 2 ^ 31.

End Int.

(* ================================================================= *)
(** ** Text conversions *)

Module Text.

Definition digit_char (d : Z) : ascii := ascii_of_nat (48 + Z.to_nat d).

Definition digit_of (c : ascii) : option Z :=
  let n := Z.of_nat (nat_of_ascii c) in
  if (48 <=? n) && (n <=? 57) then Some (n - 48) else None.

(** Decimal digits of a non-negative integer, most significant first,
    produced by repeated division as the stream inserter does. *)
Fixpoint digits_of (fuel : nat) (n : Z) (acc : string) : string :=
  match fuel with
  | O => acc
  | S fuel' =>
      let acc' := String (digit_char (n mod 10)) acc in
      if n <? 10 then acc' else digits_of fuel' (n / 10) acc'
  end.

(** [buffer << n] for a [size_t]: at most twenty digits. *)
Definition write_size_t (n : Z) : string := digits_of 20 n "".

(** [buffer << b] for a [bool] (no [boolalpha]). *)
Definition write_bool (b : bool) : string := if b then "1" else "0".

(** *** [atoi] *)

Definition isspace (c : ascii) : bool :=
  let n := nat_of_ascii c in
  (Nat.eqb n 32 || (Nat.leb 9 n && Nat.leb n 13))%bool.

Fixpoint skip_space (s : string) : string :=
  match s with
  | String c r => if isspace c then skip_space r else s
  | EmptyString => s
  end.

(** Reads an optional sign; returns [true] for a minus. *)
Definition read_sign (s : string) : bool * string :=
  match s with
  | String "-" r => (true, r)
  | String "+" r => (false, r)
  | _ => (false, s)
  end.

(** Value of the longest prefix of decimal digits, continuing [acc]. *)
Fixpoint digits_value (acc : Z) (s : string) : Z :=
  match s with
  | String c r =>
      match digit_of c with
      | Some d => digits_value (10 * acc + d) r
      | None => acc
      end
  | EmptyString => acc
  end.

(** [strtol(s, NULL, 10)]: saturates at the bounds of [long]. *)
Definition strtol10 (s : string) : Z :=
  let (neg, r) := read_sign (skip_space s) in
  let v := digits_value 0 r in
  let v := if neg then - v else v in
  Z.max Int.LONG_MIN (Z.min Int.LONG_MAX v).

(** [atoi(s)], which glibc defines as [(int) strtol(s, NULL, 10)]. The C
    standard leaves the result undefined when the value does not fit an
    [int]; whatever is returned is an [int]. *)
Definition atoi (s : string) : Z := Int.of_long (strtol10 s).

(** *** [double] to text *)

(** The value of an integer as a [double] (round to nearest even). *)
Definition Z2float (z : Z) : float :=
  SF2Prim (binary_normalize prec emax z 0 false).

Definition round_half_even_div (num den : Z) : Z :=
  let q := num / den in
  match (2 * (num mod den) ?= den) with
  | Lt => q
  | Gt => q + 1
  | Eq => if Z.even q then q else q + 1
  end.

Fixpoint count_up (fuel : nat) (q X : Z) : Z :=
  match fuel with
  | O => X
  | S fuel' => if q <? 10 then X else count_up fuel' (q / 10) (X + 1)
  end.

Fixpoint count_down (fuel : nat) (num den X : Z) : Z :=
  match fuel with
  | O => X
  | S fuel' =>
      if den <=? num then X else count_down fuel' (10 * num) den (X - 1)
  end.

(** The decimal exponent of the positive rational [num / den]: the largest
    [X] with [10 ^ X <= num / den]. A [double] lies within [10 ^ (-324)]
    and [10 ^ 309]. *)
Definition decimal_exponent (num den : Z) : Z :=
  if den <=? num then count_up 400 (num / den) 0
  else count_down 400 num den 0.

(** The six significant digits of [num / den] and its decimal exponent
    after rounding. *)
Definition six_digits (num den : Z) : Z * Z :=
  let X := decimal_exponent num den in
  let k := 5 - X in
  let D :=
    if 0 <=? k then round_half_even_div (num * 10 ^ k) den
    else round_half_even_div num (den * 10 ^ (- k)) in
  if D =? 1000000 then (100000, X + 1) else (D, X).

Fixpoint strip_trailing_zeros (s : string) : string :=
  match s with
  | EmptyString => EmptyString
  | String c r =>
      match strip_trailing_zeros r with
      | EmptyString => if Ascii.eqb c "0" then EmptyString else String c EmptyString
      | r' => String c r'
      end
  end.

Fixpoint zeros (n : nat) : string :=
  match n with
  | O => EmptyString
  | S n' => String "0" (zeros n')
  end.

Definition with_point (int_part frac : string) : string :=
  match frac with
  | EmptyString => int_part
  | _ => int_part ++ "." ++ frac
  end.

(** [%g] with precision 6 of the positive value [m * 2 ^ e]. *)
Definition format_g (m e : Z) : string :=
  let num := if 0 <=? e then m * 2 ^ e else m in
  let den := if 0 <=? e then 1 else 2 ^ (- e) in
  let '(D, X) := six_digits num den in
  let ds := digits_of 6 D "" in
  if (X <? -4) || (6 <=? X) then
    with_point (substring 0 1 ds) (strip_trailing_zeros (substring 1 5 ds))
    ++ "e" ++ (if X <? 0 then "-" else "+")
    ++ (if Z.abs X <? 10 then "0" else "") ++ digits_of 3 (Z.abs X) ""
  else if 0 <=? X then
    let n := S (Z.to_nat X) in
    with_point (substring 0 n ds) (strip_trailing_zeros (substring n (6 - n) ds))
  else
    "0." ++ zeros (Z.to_nat (- X - 1)) ++ strip_trailing_zeros ds.

(** [buffer << x] for a [double] with the stream's default format:
    [%g] with six significant digits. *)
Definition write_double (x : float) : string :=
  match Prim2SF x with
  | S754_nan => "nan"
  | S754_infinity s => (if s then "-" else "") ++ "inf"
  | S754_zero s => (if s then "-" else "") ++ "0"
  | S754_finite s m e => (if s then "-" else "") ++ format_g (Zpos m) e
  end.

(** *** [atof] *)

(** Scans decimal digits: the accumulated value, how many digits were
    read, and the rest of the text. *)
Fixpoint scan_digits (s : string) (acc n : Z) : Z * Z * string :=
  match s with
  | String c r =>
      match digit_of c with
      | Some d => scan_digits r (10 * acc + d) (n + 1)
      | None => (acc, n, s)
      end
  | EmptyString => (acc, n, s)
  end.

Definition lower (c : ascii) : ascii :=
  let n := nat_of_ascii c in
  if (Nat.leb 65 n && Nat.leb n 90)%bool then ascii_of_nat (n + 32) else c.

Fixpoint prefix_nocase (p s : string) : bool :=
  match p, s with
  | EmptyString, _ => true
  | String a p', String b s' => Ascii.eqb a (lower b) && prefix_nocase p' s'
  | _, EmptyString => false
  end.

(** The [double] nearest to [M * 10 ^ E], for [0 <= M]. *)
Definition decimal_to_double (neg : bool) (M E : Z) : float :=
  SF2Prim
    (match M with
     | Zpos _ =>
         if 0 <=? E then binary_normalize prec emax (if neg then - (M * 10 ^ E) else M * 10 ^ E) 0 false
         else
           let '(q, e, l) := SFdiv_core_binary prec emax M 0 (10 ^ (- E)) 0 in
           binary_round_aux prec emax neg q e l
     | _ => S754_zero neg
     end).

(** The exponent part [e[+-]ddd] of a decimal floating constant, when it
    is well formed. *)
Definition read_exponent (s : string) : Z :=
  match s with
  | String c r =>
      if Ascii.eqb (lower c) "e" then
        let (eneg, r') := read_sign r in
        let '(v, n, _) := scan_digits r' 0 0 in
        if n =? 0 then 0 else if eneg then - v else v
      else 0
  | EmptyString => 0
  end.

Definition hex_digit_of (c : ascii) : option Z :=
  let n := Z.of_nat (nat_of_ascii (lower c)) in
  if (48 <=? n) && (n <=? 57) then Some (n - 48)
  else if (97 <=? n) && (n <=? 102) then Some (n - 87)
  else None.

(** Scans hexadecimal digits, as [scan_digits] scans decimal ones. *)
Fixpoint scan_hex_digits (s : string) (acc n : Z) : Z * Z * string :=
  match s with
  | String c r =>
      match hex_digit_of c with
      | Some d => scan_hex_digits r (16 * acc + d) (n + 1)
      | None => (acc, n, s)
      end
  | EmptyString => (acc, n, s)
  end.

(** The exponent part [p[+-]ddd] of a hexadecimal floating constant, when
    it is well formed. *)
Definition read_binary_exponent (s : string) : Z :=
  match s with
  | String c r =>
      if Ascii.eqb (lower c) "p" then
        let (eneg, r') := read_sign r in
        let '(v, n, _) := scan_digits r' 0 0 in
        if n =? 0 then 0 else if eneg then - v else v
      else 0
  | EmptyString => 0
  end.

(** A hexadecimal floating constant [0x h.h p e] at the head of the text:
    its digits as an integer [M] and the exponent [E] with value
    [M * 2 ^ E]; [None] when no hexadecimal digit follows [0x]. *)
Definition read_hexadecimal (s : string) : option (Z * Z) :=
  match s with
  | String c0 (String c1 r) =>
      if Ascii.eqb c0 "0" && Ascii.eqb (lower c1) "x" then
        let '(M1, n1, r1) := scan_hex_digits r 0 0 in
        let '(M2, n2, r2) :=
          match r1 with
          | String "." r' => scan_hex_digits r' M1 0
          | _ => (M1, 0, r1)
          end in
        if n1 + n2 =? 0 then None
        else Some (M2, read_binary_exponent r2 - 4 * n2)
      else None
  | _ => None
  end.

(** The [double] nearest to [M * 2 ^ E], for [0 <= M]. *)
Definition binary_to_double (neg : bool) (M E : Z) : float :=
  SF2Prim
    (match M with
     | Zpos _ => binary_normalize prec emax (if neg then - M else M) E false
     | _ => S754_zero neg
     end).

(** [atof(s)], that is [strtod(s, NULL)], in the C locale: white space, a
    sign, then an infinity, a NaN, a hexadecimal or a decimal floating
    constant; text that starts with no number converts to [0]. *)
Definition atof (s : string) : float :=
  let (neg, r) := read_sign (skip_space s) in
  if prefix_nocase "inf" r then (if neg then neg_infinity else infinity)
  else if prefix_nocase "nan" r then nan
  else
    match read_hexadecimal r with
    | Some (M, E) => binary_to_double neg M E
    | None =>
        let '(M1, n1, r1) := scan_digits r 0 0 in
        let '(M2, n2, r2) :=
          match r1 with
          | String "." r' => scan_digits r' M1 0
          | _ => (M1, 0, r1)
          end in
        if n1 + n2 =? 0 then zero
        else decimal_to_double neg M2 (read_exponent r2 - n2)
    end.

End Text.

(* ================================================================= *)
(** ** The data of a search *)

(** [enum StoppingCondition] of the class, as the search assigns it. *)
Inductive StoppingCondition : Type :=
| MaximumTime
| GeneralizationPerformanceGoal
| MaximumIterations
| MaximumGeneralizationFailures
| AlgorithmFinished.

(** [struct IncrementalOrderResults]. The vectors are empty after
    construction; a scalar member is [None] until the search assigns it. *)
Module IncrementalOrderResults.

Record t : Type := mk {
  order_data : list Z;
  performance_data : list float;
  generalization_performance_data : list float;
  parameters_data : list (list float);
  minimal_parameters : list float;
  stopping_condition : option StoppingCondition;
  optimal_order : option Z;
  final_generalization_performance : option float;
  final_performance : option float;
  iterations_number : option Z;
  elapsed_time : option float
}.

Definition new : t := mk [] [] [] [] [] None None None None None None.

End IncrementalOrderResults.

(** Modelled from the spec: the neural network is an external collaborator
    (section 6, [install(structure, parameters)]); its class is not part of
    these sources. It holds a structure and a parameter vector; [set] gives
    it a structure and [set_parameters] a parameter vector. *)
Module MultilayerPerceptron.

Record t : Type := mk {
  inputs_number : Z;
  hidden_perceptrons_number : Z;
  outputs_number : Z;
  parameters : list float
}.

Definition set (new_inputs new_hidden new_outputs : Z) (n : t) : t :=
  mk new_inputs new_hidden new_outputs (parameters n).

Definition set_parameters (new_parameters : list float) (n : t) : t :=
  mk (inputs_number n) (hidden_perceptrons_number n) (outputs_number n)
     new_parameters.

End MultilayerPerceptron.

(** Modelled from the spec: the evaluator adapter of section 6 and the wall
    clock, which the search only consumes. [calculate_performances] and
    [get_parameters_order] are methods of the base class
    [OrderSelectionAlgorithm], which is not part of these sources; they train
    the network, so their answers are scripted by the number of evaluations
    made so far. [time n] is the reading of the [n]-th call of [time()].
    The two [uninitialized_*] values stand for what the locals
    [optimal_order] and [optimum_generalization_performance] (and
    [elapsed_time]) hold before their first assignment. *)
Record World : Type := {
  calculate_performances : nat -> Z -> float * float;
  get_parameters_order : nat -> Z -> list float;
  time : nat -> Z;
  uninitialized_size_t : Z;
  uninitialized_double : float
}.

(** The same world with other values in the uninitialized locals. *)
Definition with_uninitialized (a : Z) (b : float) (w : World) : World :=
  {| calculate_performances := calculate_performances w;
     get_parameters_order := get_parameters_order w;
     time := time w;
     uninitialized_size_t := a;
     uninitialized_double := b |}.

(** [difftime(t1, t0)]: the difference of two [time_t] in seconds. *)
Definition difftime (t1 t0 : Z) : float := Text.Z2float (t1 - t0).

(** The locals of [perform_order_selection] that live across iterations.
    [performance], [current_training_performance],
    [current_generalization_performance], [parameters_history_row] and
    [current_time] are assigned before they are read in every iteration and
    are bound inside [loop_body]. [evaluations] counts the calls of
    [calculate_performances] and [cout] collects the printed lines. *)
Record Locals : Type := {
  prev_generalization_performance : float;
  optimal_order : Z;
  optimum_parameters : list float;
  optimum_generalization_performance : float;
  order : Z;
  iterations : Z;
  generalization_failures : Z;
  end_ : bool;
  elapsed_time : float;
  results : IncrementalOrderResults.t;
  evaluations : nat;
  cout : list string
}.

(** [v.push_back(x)] *)
Definition push_back {A : Type} (v : list A) (x : A) : list A := (v ++ [x])%list.

(** [if (display) std::cout << line << std::endl;] *)
Definition print (display : bool) (out : list string) (line : string) : list string :=
  if display then push_back out line else out.

(** The locals with the printed lines left out. *)
Definition without_cout (l : Locals) : Locals :=
  {| prev_generalization_performance := prev_generalization_performance l;
     optimal_order := optimal_order l;
     optimum_parameters := optimum_parameters l;
     optimum_generalization_performance := optimum_generalization_performance l;
     order := order l;
     iterations := iterations l;
     generalization_failures := generalization_failures l;
     end_ := end_ l;
     elapsed_time := elapsed_time l;
     results := results l;
     evaluations := evaluations l;
     cout := [] |}.

(* ================================================================= *)
(** ** Documents *)

(** The part of tinyxml2 the class uses: a document is a sequence of nodes,
    a node is a text or a named element with child nodes. *)
Module tinyxml2.

Inductive XMLNode : Type :=
| XMLText (value : string)
| XMLElement (name : string) (children : list XMLNode).

Definition XMLDocument : Type := list XMLNode.

(** [parent->FirstChildElement(name)]: the children of the first child
    element of that name, [None] for a null pointer. *)
Fixpoint FirstChildElement (name : string) (nodes : list XMLNode)
  : option (list XMLNode) :=
  match nodes with
  | [] => None
  | XMLElement n children :: rest =>
      if String.eqb n name then Some children else FirstChildElement name rest
  | XMLText _ :: rest => FirstChildElement name rest
  end.

(** [element->GetText()]: the text of the first child when that is a text
    node, [None] for a null pointer. *)
Definition GetText (children : list XMLNode) : option string :=
  match children with
  | XMLText value :: _ => Some value
  | _ => None
  end.

(** [NewElement(name)] with one [NewText(text)] linked below it. *)
Definition element_with_text (name text : string) : XMLNode :=
  XMLElement name [XMLText text].

End tinyxml2.

(** A call on an object either completes or throws a [std::logic_error];
    either way it leaves the object in some state. *)
Inductive Attempt (A : Type) : Type :=
| Done (a : A)
| logic_error (what : string) (a : A).

Arguments Done {A} a.
Arguments logic_error {A} what a.

Definition object_after {A : Type} (r : Attempt A) : A :=
  match r with
  | Done a => a
  | logic_error _ a => a
  end.

Definition nl : string := String (ascii_of_nat 10) EmptyString.

(** What the stopping conditions of section 4.2 are evaluated on in one
    iteration. *)
Record Metrics : Type := {
  metric_elapsed_time : float;
  metric_generalization_performance : float;
  metric_iterations : Z;
  metric_generalization_failures : Z;
  metric_order : Z
}.

(** "First true wins": the reason of the first condition that holds. *)
Definition first_that_holds (conditions : list (bool * StoppingCondition))
  : option StoppingCondition :=
  match find fst conditions with
  | Some (_, reason) => Some reason
  | None => None
  end.

Section Class.

(** The build: whether [__OPENNN_DEBUG__] is defined. *)
Variable OPENNN_DEBUG : bool.

(** The enumeration of the performance calculation methods is declared in
    the base class header, which is not part of these sources. *)
Context {PerformanceCalculationMethod : Type}.

(** The members of an [IncrementalOrder] object: those inherited from
    [OrderSelectionAlgorithm], then its own two. *)
Record IncrementalOrder : Type := {
  minimum_order : Z;
  maximum_order : Z;
  trials_number : Z;
  performance_calculation_method : PerformanceCalculationMethod;
  reserve_parameters_data : bool;
  reserve_performance_data : bool;
  reserve_generalization_performance_data : bool;
  reserve_minimal_parameters : bool;
  display : bool;
  generalization_performance_goal : float;
  maximum_iterations_number : Z;
  maximum_time : float;
  tolerance : float;
  step : Z;
  maximum_generalization_failures : Z
}.

(* --------------------------------------------------------------- *)
(** *** Assignments to one member *)

Definition assign_minimum_order (v : Z) (this : IncrementalOrder) : IncrementalOrder :=
  {| minimum_order := v;
     maximum_order := maximum_order this;
     trials_number := trials_number this;
     performance_calculation_method := performance_calculation_method this;
     reserve_parameters_data := reserve_parameters_data this;
     reserve_performance_data := reserve_performance_data this;
     reserve_generalization_performance_data := reserve_generalization_performance_data this;
     reserve_minimal_parameters := reserve_minimal_parameters this;
     display := display this;
     generalization_performance_goal := generalization_performance_goal this;
     maximum_iterations_number := maximum_iterations_number this;
     maximum_time := maximum_time this;
     tolerance := tolerance this;
     step := step this;
     maximum_generalization_failures := maximum_generalization_failures this |}.

Definition assign_maximum_order (v : Z) (this : IncrementalOrder) : IncrementalOrder :=
  {| minimum_order := minimum_order this;
     maximum_order := v;
     trials_number := trials_number this;
     performance_calculation_method := performance_calculation_method this;
     reserve_parameters_data := reserve_parameters_data this;
     reserve_performance_data := reserve_performance_data this;
     reserve_generalization_performance_data := reserve_generalization_performance_data this;
     reserve_minimal_parameters := reserve_minimal_parameters this;
     display := display this;
     generalization_performance_goal := generalization_performance_goal this;
     maximum_iterations_number := maximum_iterations_number this;
     maximum_time := maximum_time this;
     tolerance := tolerance this;
     step := step this;
     maximum_generalization_failures := maximum_generalization_failures this |}.

Definition assign_trials_number (v : Z) (this : IncrementalOrder) : IncrementalOrder :=
  {| minimum_order := minimum_order this;
     maximum_order := maximum_order this;
     trials_number := v;
     performance_calculation_method := performance_calculation_method this;
     reserve_parameters_data := reserve_parameters_data this;
     reserve_performance_data := reserve_performance_data this;
     reserve_generalization_performance_data := reserve_generalization_performance_data this;
     reserve_minimal_parameters := reserve_minimal_parameters this;
     display := display this;
     generalization_performance_goal := generalization_performance_goal this;
     maximum_iterations_number := maximum_iterations_number this;
     maximum_time := maximum_time this;
     tolerance := tolerance this;
     step := step this;
     maximum_generalization_failures := maximum_generalization_failures this |}.

Definition assign_performance_calculation_method (v : PerformanceCalculationMethod) (this : IncrementalOrder) : IncrementalOrder :=
  {| minimum_order := minimum_order this;
     maximum_order := maximum_order this;
     trials_number := trials_number this;
     performance_calculation_method := v;
     reserve_parameters_data := reserve_parameters_data this;
     reserve_performance_data := reserve_performance_data this;
     reserve_generalization_performance_data := reserve_generalization_performance_data this;
     reserve_minimal_parameters := reserve_minimal_parameters this;
     display := display this;
     generalization_performance_goal := generalization_performance_goal this;
     maximum_iterations_number := maximum_iterations_number this;
     maximum_time := maximum_time this;
     tolerance := tolerance this;
     step := step this;
     maximum_generalization_failures := maximum_generalization_failures this |}.

Definition assign_reserve_parameters_data (v : bool) (this : IncrementalOrder) : IncrementalOrder :=
  {| minimum_order := minimum_order this;
     maximum_order := maximum_order this;
     trials_number := trials_number this;
     performance_calculation_method := performance_calculation_method this;
     reserve_parameters_data := v;
     reserve_performance_data := reserve_performance_data this;
     reserve_generalization_performance_data := reserve_generalization_performance_data this;
     reserve_minimal_parameters := reserve_minimal_parameters this;
     display := display this;
     generalization_performance_goal := generalization_performance_goal this;
     maximum_iterations_number := maximum_iterations_number this;
     maximum_time := maximum_time this;
     tolerance := tolerance this;
     step := step this;
     maximum_generalization_failures := maximum_generalization_failures this |}.

Definition assign_reserve_performance_data (v : bool) (this : IncrementalOrder) : IncrementalOrder :=
  {| minimum_order := minimum_order this;
     maximum_order := maximum_order this;
     trials_number := trials_number this;
     performance_calculation_method := performance_calculation_method this;
     reserve_parameters_data := reserve_parameters_data this;
     reserve_performance_data := v;
     reserve_generalization_performance_data := reserve_generalization_performance_data this;
     reserve_minimal_parameters := reserve_minimal_parameters this;
     display := display this;
     generalization_performance_goal := generalization_performance_goal this;
     maximum_iterations_number := maximum_iterations_number this;
     maximum_time := maximum_time this;
     tolerance := tolerance this;
     step := step this;
     maximum_generalization_failures := maximum_generalization_failures this |}.

Definition assign_reserve_generalization_performance_data (v : bool) (this : IncrementalOrder) : IncrementalOrder :=
  {| minimum_order := minimum_order this;
     maximum_order := maximum_order this;
     trials_number := trials_number this;
     performance_calculation_method := performance_calculation_method this;
     reserve_parameters_data := reserve_parameters_data this;
     reserve_performance_data := reserve_performance_data this;
     reserve_generalization_performance_data := v;
     reserve_minimal_parameters := reserve_minimal_parameters this;
     display := display this;
     generalization_performance_goal := generalization_performance_goal this;
     maximum_iterations_number := maximum_iterations_number this;
     maximum_time := maximum_time this;
     tolerance := tolerance this;
     step := step this;
     maximum_generalization_failures := maximum_generalization_failures this |}.

Definition assign_reserve_minimal_parameters (v : bool) (this : IncrementalOrder) : IncrementalOrder :=
  {| minimum_order := minimum_order this;
     maximum_order := maximum_order this;
     trials_number := trials_number this;
     performance_calculation_method := performance_calculation_method this;
     reserve_parameters_data := reserve_parameters_data this;
     reserve_performance_data := reserve_performance_data this;
     reserve_generalization_performance_data := reserve_generalization_performance_data this;
     reserve_minimal_parameters := v;
     display := display this;
     generalization_performance_goal := generalization_performance_goal this;
     maximum_iterations_number := maximum_iterations_number this;
     maximum_time := maximum_time this;
     tolerance := tolerance this;
     step := step this;
     maximum_generalization_failures := maximum_generalization_failures this |}.

Definition assign_display (v : bool) (this : IncrementalOrder) : IncrementalOrder :=
  {| minimum_order := minimum_order this;
     maximum_order := maximum_order this;
     trials_number := trials_number this;
     performance_calculation_method := performance_calculation_method this;
     reserve_parameters_data := reserve_parameters_data this;
     reserve_performance_data := reserve_performance_data this;
     reserve_generalization_performance_data := reserve_generalization_performance_data this;
     reserve_minimal_parameters := reserve_minimal_parameters this;
     display := v;
     generalization_performance_goal := generalization_performance_goal this;
     maximum_iterations_number := maximum_iterations_number this;
     maximum_time := maximum_time this;
     tolerance := tolerance this;
     step := step this;
     maximum_generalization_failures := maximum_generalization_failures this |}.

Definition assign_generalization_performance_goal (v : float) (this : IncrementalOrder) : IncrementalOrder :=
  {| minimum_order := minimum_order this;
     maximum_order := maximum_order this;
     trials_number := trials_number this;
     performance_calculation_method := performance_calculation_method this;
     reserve_parameters_data := reserve_parameters_data this;
     reserve_performance_data := reserve_performance_data this;
     reserve_generalization_performance_data := reserve_generalization_performance_data this;
     reserve_minimal_parameters := reserve_minimal_parameters this;
     display := display this;
     generalization_performance_goal := v;
     maximum_iterations_number := maximum_iterations_number this;
     maximum_time := maximum_time this;
     tolerance := tolerance this;
     step := step this;
     maximum_generalization_failures := maximum_generalization_failures this |}.

Definition assign_maximum_iterations_number (v : Z) (this : IncrementalOrder) : IncrementalOrder :=
  {| minimum_order := minimum_order this;
     maximum_order := maximum_order this;
     trials_number := trials_number this;
     performance_calculation_method := performance_calculation_method this;
     reserve_parameters_data := reserve_parameters_data this;
     reserve_performance_data := reserve_performance_data this;
     reserve_generalization_performance_data := reserve_generalization_performance_data this;
     reserve_minimal_parameters := reserve_minimal_parameters this;
     display := display this;
     generalization_performance_goal := generalization_performance_goal this;
     maximum_iterations_number := v;
     maximum_time := maximum_time this;
     tolerance := tolerance this;
     step := step this;
     maximum_generalization_failures := maximum_generalization_failures this |}.

Definition assign_maximum_time (v : float) (this : IncrementalOrder) : IncrementalOrder :=
  {| minimum_order := minimum_order this;
     maximum_order := maximum_order this;
     trials_number := trials_number this;
     performance_calculation_method := performance_calculation_method this;
     reserve_parameters_data := reserve_parameters_data this;
     reserve_performance_data := reserve_performance_data this;
     reserve_generalization_performance_data := reserve_generalization_performance_data this;
     reserve_minimal_parameters := reserve_minimal_parameters this;
     display := display this;
     generalization_performance_goal := generalization_performance_goal this;
     maximum_iterations_number := maximum_iterations_number this;
     maximum_time := v;
     tolerance := tolerance this;
     step := step this;
     maximum_generalization_failures := maximum_generalization_failures this |}.

Definition assign_tolerance (v : float) (this : IncrementalOrder) : IncrementalOrder :=
  {| minimum_order := minimum_order this;
     maximum_order := maximum_order this;
     trials_number := trials_number this;
     performance_calculation_method := performance_calculation_method this;
     reserve_parameters_data := reserve_parameters_data this;
     reserve_performance_data := reserve_performance_data this;
     reserve_generalization_performance_data := reserve_generalization_performance_data this;
     reserve_minimal_parameters := reserve_minimal_parameters this;
     display := display this;
     generalization_performance_goal := generalization_performance_goal this;
     maximum_iterations_number := maximum_iterations_number this;
     maximum_time := maximum_time this;
     tolerance := v;
     step := step this;
     maximum_generalization_failures := maximum_generalization_failures this |}.

Definition assign_step (v : Z) (this : IncrementalOrder) : IncrementalOrder :=
  {| minimum_order := minimum_order this;
     maximum_order := maximum_order this;
     trials_number := trials_number this;
     performance_calculation_method := performance_calculation_method this;
     reserve_parameters_data := reserve_parameters_data this;
     reserve_performance_data := reserve_performance_data this;
     reserve_generalization_performance_data := reserve_generalization_performance_data this;
     reserve_minimal_parameters := reserve_minimal_parameters this;
     display := display this;
     generalization_performance_goal := generalization_performance_goal this;
     maximum_iterations_number := maximum_iterations_number this;
     maximum_time := maximum_time this;
     tolerance := tolerance this;
     step := v;
     maximum_generalization_failures := maximum_generalization_failures this |}.

Definition assign_maximum_generalization_failures (v : Z) (this : IncrementalOrder) : IncrementalOrder :=
  {| minimum_order := minimum_order this;
     maximum_order := maximum_order this;
     trials_number := trials_number this;
     performance_calculation_method := performance_calculation_method this;
     reserve_parameters_data := reserve_parameters_data this;
     reserve_performance_data := reserve_performance_data this;
     reserve_generalization_performance_data := reserve_generalization_performance_data this;
     reserve_minimal_parameters := reserve_minimal_parameters this;
     display := display this;
     generalization_performance_goal := generalization_performance_goal this;
     maximum_iterations_number := maximum_iterations_number this;
     maximum_time := maximum_time this;
     tolerance := tolerance this;
     step := step this;
     maximum_generalization_failures := v |}.

(* --------------------------------------------------------------- *)
(** *** Setters *)

(** Lines 100-105. *)
Definition set_default (this : IncrementalOrder) : IncrementalOrder :=
  assign_maximum_generalization_failures 3 (assign_step 1 this).

(** Lines 112-140; the two checks are compiled in debug builds only. *)
Definition set_step (new_step : Z) (this : IncrementalOrder) : Attempt IncrementalOrder :=
  if OPENNN_DEBUG && (new_step <=? 0) then
    logic_error
      ("OpenNN Exception: IncrementalOrder class." ++ nl
       ++ "void set_step(const size_t&) method." ++ nl
       ++ "New_step (" ++ Text.write_size_t new_step ++ ") must be greater than 0." ++ nl)
      this
  else if OPENNN_DEBUG
          && (SizeT.sub (maximum_order this) (minimum_order this) <? new_step) then
    logic_error
      ("OpenNN Exception: IncrementalOrder class." ++ nl
       ++ "void set_step(const size_t&) method." ++ nl
       ++ "New_step must be less than the distance between maximum_order and minimum_order ("
       ++ Text.write_size_t (SizeT.sub (maximum_order this) (minimum_order this))
       ++ ")." ++ nl)
      this
  else Done (assign_step new_step this).

(** Lines 147-165; the check is compiled in debug builds only. *)
Definition set_maximum_generalization_failures
    (new_maximum_performance_failures : Z) (this : IncrementalOrder)
  : Attempt IncrementalOrder :=
  if OPENNN_DEBUG && (new_maximum_performance_failures <=? 0) then
    logic_error
      ("OpenNN Exception: IncrementalOrder class." ++ nl
       ++ "void set_maximum_generalization_failures(const size_t&) method." ++ nl
       ++ "Maximum generalization failures must be greater than 0." ++ nl)
      this
  else Done (assign_maximum_generalization_failures new_maximum_performance_failures this).

(** Modelled from the spec: the setters of the base class
    [OrderSelectionAlgorithm], which is not part of these sources. By
    section 7 a setter rejects an invalid value synchronously and leaves
    the prior state unchanged, and otherwise stores the value; which values
    a setter accepts, the text it throws, and the names of the performance
    calculation methods are left open here. *)
Record OrderSelectionAlgorithm : Type := {
  accepts_trials_number : Z -> bool;
  accepts_generalization_performance_goal : float -> bool;
  accepts_maximum_iterations_number : Z -> bool;
  accepts_maximum_time : float -> bool;
  accepts_tolerance : float -> bool;
  write_method : PerformanceCalculationMethod -> string;
  read_method : string -> option PerformanceCalculationMethod;
  what : string -> string
}.

Variable base : OrderSelectionAlgorithm.

Definition checked_setter {V : Type} (name : string) (accepts : V -> bool)
    (assign : V -> IncrementalOrder -> IncrementalOrder)
    (v : V) (this : IncrementalOrder) : Attempt IncrementalOrder :=
  if accepts v then Done (assign v this) else logic_error (what base name) this.

Definition set_trials_number :=
  checked_setter "set_trials_number" (accepts_trials_number base) assign_trials_number.

Definition set_generalization_performance_goal :=
  checked_setter "set_generalization_performance_goal"
    (accepts_generalization_performance_goal base)
    assign_generalization_performance_goal.

Definition set_maximum_iterations_number :=
  checked_setter "set_maximum_iterations_number"
    (accepts_maximum_iterations_number base) assign_maximum_iterations_number.

Definition set_maximum_time :=
  checked_setter "set_maximum_time" (accepts_maximum_time base) assign_maximum_time.

Definition set_tolerance :=
  checked_setter "set_tolerance" (accepts_tolerance base) assign_tolerance.

Definition write_performance_calculation_method (this : IncrementalOrder) : string :=
  write_method base (performance_calculation_method this).

(** [set_performance_calculation_method(const std::string&)] *)
Definition set_performance_calculation_method
    (new_performance_calculation_method : string) (this : IncrementalOrder)
  : Attempt IncrementalOrder :=
  match read_method base new_performance_calculation_method with
  | Some m => Done (assign_performance_calculation_method m this)
  | None => logic_error (what base "set_performance_calculation_method") this
  end.

Definition set_reserve_parameters_data (v : bool) (this : IncrementalOrder)
  : Attempt IncrementalOrder := Done (assign_reserve_parameters_data v this).

Definition set_reserve_performance_data (v : bool) (this : IncrementalOrder)
  : Attempt IncrementalOrder := Done (assign_reserve_performance_data v this).

Definition set_reserve_generalization_performance_data (v : bool) (this : IncrementalOrder)
  : Attempt IncrementalOrder :=
  Done (assign_reserve_generalization_performance_data v this).

Definition set_reserve_minimal_parameters (v : bool) (this : IncrementalOrder)
  : Attempt IncrementalOrder := Done (assign_reserve_minimal_parameters v this).

Definition set_display (v : bool) (this : IncrementalOrder)
  : Attempt IncrementalOrder := Done (assign_display v this).

(* --------------------------------------------------------------- *)
(** *** Persistence *)

Import tinyxml2.

(** Lines 316-509. *)
Definition to_XML (this : IncrementalOrder) : XMLDocument :=
  [ XMLElement "IncrementalOrder"
      [ element_with_text "MinimumOrder" (Text.write_size_t (minimum_order this));
        element_with_text "MaximumOrder" (Text.write_size_t (maximum_order this));
        element_with_text "TrialsNumber" (Text.write_size_t (trials_number this));
        element_with_text "PerformanceCalculationMethod"
          (write_performance_calculation_method this);
        element_with_text "Step" (Text.write_size_t (step this));
        element_with_text "ReserveParametersData"
          (Text.write_bool (reserve_parameters_data this));
        element_with_text "ReservePerformanceData"
          (Text.write_bool (reserve_performance_data this));
        element_with_text "ReserveGeneralizationPerformanceData"
          (Text.write_bool (reserve_generalization_performance_data this));
        element_with_text "ReserveMinimalParameters"
          (Text.write_bool (reserve_minimal_parameters this));
        element_with_text "Display" (Text.write_bool (display this));
        element_with_text "GeneralizationPerformanceGoal"
          (Text.write_double (generalization_performance_goal this));
        element_with_text "MaximumIterationsNumber"
          (Text.write_size_t (maximum_iterations_number this));
        element_with_text "MaximumTime" (Text.write_double (maximum_time this));
        element_with_text "Tolerance" (Text.write_double (tolerance this));
        element_with_text "MaximumGeneralizationFailures"
          (Text.write_size_t (maximum_generalization_failures this)) ] ].

(** [const size_t v = atoi(text);] *)
Definition size_t_of_text (text : string) : Z := SizeT.wrap (Text.atoi text).

(** [text != "0"] *)
Definition flag_of_text (text : string) : bool := negb (String.eqb text "0").

(** The blocks of [from_XML] after the root is found, in the order of the
    source: the element's name and what is done with its text. *)
Definition members : list (string * (string -> IncrementalOrder -> Attempt IncrementalOrder)) :=
  [ ("MinimumOrder",
     fun text this => Done (assign_minimum_order (size_t_of_text text) this));
    ("MaximumOrder",
     fun text this => Done (assign_maximum_order (size_t_of_text text) this));
    ("TrialsNumber", fun text => set_trials_number (size_t_of_text text));
    ("PerformanceCalculationMethod", fun text => set_performance_calculation_method text);
    ("Step", fun text => set_step (size_t_of_text text));
    ("ReserveParametersData", fun text => set_reserve_parameters_data (flag_of_text text));
    ("ReservePerformanceData", fun text => set_reserve_performance_data (flag_of_text text));
    ("ReserveGeneralizationPerformanceData",
     fun text => set_reserve_generalization_performance_data (flag_of_text text));
    ("ReserveMinimalParameters",
     fun text => set_reserve_minimal_parameters (flag_of_text text));
    ("Display", fun text => set_display (flag_of_text text));
    ("GeneralizationPerformanceGoal",
     fun text => set_generalization_performance_goal (Text.atof text));
    ("MaximumIterationsNumber",
     fun text => set_maximum_iterations_number (size_t_of_text text));
    ("MaximumTime", fun text => set_maximum_time (Text.Z2float (Text.atoi text)));
    ("Tolerance", fun text => set_tolerance (Text.atof text));
    ("MaximumGeneralizationFailures",
     fun text => set_maximum_generalization_failures (size_t_of_text text)) ].

(** How a call that may throw out of the method ends. [Undefined] stands
    for undefined behaviour: [atoi] or the [std::string] constructor
    applied to the null pointer that [GetText] returns for an element
    without text. *)
Inductive Completion : Type :=
| Returns (this : IncrementalOrder) (cout : list string)
| Throws (what : string) (this : IncrementalOrder) (cout : list string)
| Undefined.

(** One block:
    [if (element) { v = convert(element->GetText());
                    try { set(v); } catch (const std::logic_error& e)
                    { std::cout << e.what() << std::endl; } }] *)
Definition read_member (root_element : list XMLNode)
    (member : string * (string -> IncrementalOrder -> Attempt IncrementalOrder))
    (state : option (IncrementalOrder * list string))
  : option (IncrementalOrder * list string) :=
  match state with
  | None => None
  | Some (this, cout) =>
      match FirstChildElement (fst member) root_element with
      | None => Some (this, cout)
      | Some element =>
          match GetText element with
          | None => None
          | Some text =>
              match snd member text this with
              | Done this' => Some (this', cout)
              | logic_error what this' => Some (this', push_back cout what)
              end
          end
      end
  end.

Definition read_members (root_element : list XMLNode)
    (ms : list (string * (string -> IncrementalOrder -> Attempt IncrementalOrder)))
    (state : option (IncrementalOrder * list string))
  : option (IncrementalOrder * list string) :=
  fold_left (fun s m => read_member root_element m s) ms state.

(** Lines 516-815. *)
Definition from_XML (document : XMLDocument) (this : IncrementalOrder) : Completion :=
  match FirstChildElement "IncrementalOrder" document with
  | None =>
      Throws ("OpenNN Exception: IncrementalOrder class." ++ nl
              ++ "void from_XML(const tinyxml2::XMLDocument&) method." ++ nl
              ++ "IncrementalOrder element is NULL." ++ nl)
             this []
  | Some root_element =>
      match read_members root_element members (Some (this, [])) with
      | Some (this', cout) => Returns this' cout
      | None => Undefined
      end
  end.

(** Lines 837-855. [LoadFile] gives the document of a file, or [None]
    when tinyxml2 reports an error. *)
Definition load (LoadFile : string -> option XMLDocument)
    (file_name : string) (this : IncrementalOrder) : Completion :=
  let this := set_default this in
  match LoadFile file_name with
  | None =>
      Throws ("OpenNN Exception: IncrementalOrder class." ++ nl
              ++ "void load(const std::string&) method." ++ nl
              ++ "Cannot load XML file " ++ file_name ++ "." ++ nl)
             this []
  | Some document => from_XML document this
  end.

(** Every member whose element is missing below [root_element] has in
    [after] the value it has in [before]. *)
Definition missing_members_kept (root_element : list XMLNode)
    (before after : IncrementalOrder) : Prop :=
  (FirstChildElement "MinimumOrder" root_element = None ->
   minimum_order after = minimum_order before) /\
  (FirstChildElement "MaximumOrder" root_element = None ->
   maximum_order after = maximum_order before) /\
  (FirstChildElement "TrialsNumber" root_element = None ->
   trials_number after = trials_number before) /\
  (FirstChildElement "PerformanceCalculationMethod" root_element = None ->
   performance_calculation_method after = performance_calculation_method before) /\
  (FirstChildElement "Step" root_element = None -> step after = step before) /\
  (FirstChildElement "ReserveParametersData" root_element = None ->
   reserve_parameters_data after = reserve_parameters_data before) /\
  (FirstChildElement "ReservePerformanceData" root_element = None ->
   reserve_performance_data after = reserve_performance_data before) /\
  (FirstChildElement "ReserveGeneralizationPerformanceData" root_element = None ->
   reserve_generalization_performance_data after
   = reserve_generalization_performance_data before) /\
  (FirstChildElement "ReserveMinimalParameters" root_element = None ->
   reserve_minimal_parameters after = reserve_minimal_parameters before) /\
  (FirstChildElement "Display" root_element = None -> display after = display before) /\
  (FirstChildElement "GeneralizationPerformanceGoal" root_element = None ->
   generalization_performance_goal after = generalization_performance_goal before) /\
  (FirstChildElement "MaximumIterationsNumber" root_element = None ->
   maximum_iterations_number after = maximum_iterations_number before) /\
  (FirstChildElement "MaximumTime" root_element = None ->
   maximum_time after = maximum_time before) /\
  (FirstChildElement "Tolerance" root_element = None ->
   tolerance after = tolerance before) /\
  (FirstChildElement "MaximumGeneralizationFailures" root_element = None ->
   maximum_generalization_failures after = maximum_generalization_failures before).

(** The blocks whose element is present below [root_element]. *)
Definition present_members (root_element : list XMLNode)
  : list (string * (string -> IncrementalOrder -> Attempt IncrementalOrder)) :=
  filter
    (fun m =>
       match FirstChildElement (fst m) root_element with
       | Some _ => true
       | None => false
       end)
    members.

(** A value of a [size_t] member that [atoi] can return. *)
Definition fits_int (z : Z) : Prop := 0 <= z <= Int.INT_MAX.

(** The values a configuration must hold for [from_XML] to take them back
    from the document of [to_XML]: the integers fit an [int], and every
    setter accepts the value it is given. *)
Definition readable_back (this : IncrementalOrder) : Prop :=
  fits_int (minimum_order this) /\
  fits_int (maximum_order this) /\
  fits_int (trials_number this) /\
  fits_int (step this) /\
  fits_int (maximum_iterations_number this) /\
  fits_int (maximum_generalization_failures this) /\
  accepts_trials_number base (trials_number this) = true /\
  accepts_maximum_iterations_number base (maximum_iterations_number this) = true /\
  accepts_generalization_performance_goal base
    (Text.atof (Text.write_double (generalization_performance_goal this))) = true /\
  accepts_tolerance base (Text.atof (Text.write_double (tolerance this))) = true /\
  read_method base (write_method base (performance_calculation_method this))
  = Some (performance_calculation_method this) /\
  (OPENNN_DEBUG = true ->
   0 < step this <= SizeT.sub (maximum_order this) (minimum_order this) /\
   0 < maximum_generalization_failures this).

(** What [after] holds of [this] once read back: every integer member, the
    method and every flag exactly; the goal and the tolerance as the
    [double] nearest to their printed six significant digits. Nothing is
    said of [maximum_time]. *)
Definition read_back (this after : IncrementalOrder) : Prop :=
  minimum_order after = minimum_order this /\
  maximum_order after = maximum_order this /\
  trials_number after = trials_number this /\
  performance_calculation_method after = performance_calculation_method this /\
  step after = step this /\
  reserve_parameters_data after = reserve_parameters_data this /\
  reserve_performance_data after = reserve_performance_data this /\
  reserve_generalization_performance_data after
  = reserve_generalization_performance_data this /\
  reserve_minimal_parameters after = reserve_minimal_parameters this /\
  display after = display this /\
  generalization_performance_goal after
  = Text.atof (Text.write_double (generalization_performance_goal this)) /\
  maximum_iterations_number after = maximum_iterations_number this /\
  tolerance after = Text.atof (Text.write_double (tolerance this)) /\
  maximum_generalization_failures after = maximum_generalization_failures this.

(** The members inherited from the base class are in [after] what they are
    in [before]. *)
Definition inherited_members_kept (before after : IncrementalOrder) : Prop :=
  minimum_order after = minimum_order before /\
  maximum_order after = maximum_order before /\
  trials_number after = trials_number before /\
  performance_calculation_method after = performance_calculation_method before /\
  reserve_parameters_data after = reserve_parameters_data before /\
  reserve_performance_data after = reserve_performance_data before /\
  reserve_generalization_performance_data after
  = reserve_generalization_performance_data before /\
  reserve_minimal_parameters after = reserve_minimal_parameters before /\
  display after = display before /\
  generalization_performance_goal after = generalization_performance_goal before /\
  maximum_iterations_number after = maximum_iterations_number before /\
  maximum_time after = maximum_time before /\
  tolerance after = tolerance before.

(* --------------------------------------------------------------- *)
(** *** [perform_order_selection] *)

Section Search.

Variable this : IncrementalOrder.
Variable world : World.

(** The test of lines 232-234. *)
Definition adopts (l : Locals) (current_generalization_performance : float) : bool :=
  (iterations l =? 0)
  || (PrimFloat.ltb current_generalization_performance
                    (optimum_generalization_performance l)
      && PrimFloat.ltb (tolerance this)
           (PrimFloat.abs
              (PrimFloat.sub (optimum_generalization_performance l)
                             current_generalization_performance))).

(** The chain of lines 247-277: the stopping condition it assigns, if
    any, and the line it prints. *)
Definition stopping_criteria
    (elapsed : float) (performance_1 : float)
    (iterations' generalization_failures' order' : Z)
  : option (StoppingCondition * string) :=
  if PrimFloat.ltb (maximum_time this) elapsed then
    Some (MaximumTime, "Maximum time reached.")
  else if PrimFloat.ltb performance_1 (generalization_performance_goal this) then
    Some (GeneralizationPerformanceGoal, "Generalization performance reached.")
  else if maximum_iterations_number this <? iterations' then
    Some (MaximumIterations, "Maximum number of iterations reached.")
  else if maximum_generalization_failures this <=? generalization_failures' then
    Some (MaximumGeneralizationFailures,
          "Maximum generalization performance failures("
          ++ Text.write_size_t generalization_failures' ++ ") reached.")
  else if order' =? maximum_order this then
    Some (AlgorithmFinished, "Algorithm finished")
  else None.

(** One pass through the body of [while (!end)], lines 207-289. *)
Definition loop_body (beginning_time : Z) (l : Locals) : Locals :=
  let performance := calculate_performances world (evaluations l) (order l) in
  let current_training_performance := fst performance in
  let current_generalization_performance := snd performance in
  let evaluations' := S (evaluations l) in
  let current_time := time world evaluations' in
  let elapsed_time' := difftime current_time beginning_time in
  let r := results l in
  let order_data' := push_back (IncrementalOrderResults.order_data r) (order l) in
  let performance_data' :=
    if reserve_performance_data this
    then push_back (IncrementalOrderResults.performance_data r) current_training_performance
    else IncrementalOrderResults.performance_data r in
  let generalization_performance_data' :=
    if reserve_generalization_performance_data this
    then push_back (IncrementalOrderResults.generalization_performance_data r)
                   current_generalization_performance
    else IncrementalOrderResults.generalization_performance_data r in
  let parameters_data' :=
    if reserve_parameters_data this
    then push_back (IncrementalOrderResults.parameters_data r)
                   (get_parameters_order world evaluations' (order l))
    else IncrementalOrderResults.parameters_data r in
  let adopt := adopts l current_generalization_performance in
  let optimal_order' := if adopt then order l else optimal_order l in
  let optimum_generalization_performance' :=
    if adopt then current_generalization_performance
    else optimum_generalization_performance l in
  let optimum_parameters' :=
    if adopt then get_parameters_order world evaluations' optimal_order'
    else optimum_parameters l in
  let generalization_failures' :=
    if adopt then generalization_failures l
    else if PrimFloat.ltb (prev_generalization_performance l)
                          current_generalization_performance
         then SizeT.incr (generalization_failures l)
         else generalization_failures l in
  let iterations' := SizeT.incr (iterations l) in
  let stop :=
    stopping_criteria elapsed_time' (snd performance) iterations'
                      generalization_failures' (order l) in
  let end' := match stop with Some _ => true | None => end_ l end in
  let stopping_condition' :=
    match stop with
    | Some (c, _) => Some c
    | None => IncrementalOrderResults.stopping_condition r
    end in
  let cout1 :=
    match stop with
    | Some (_, line) => print (display this) (cout l) line
    | None => cout l
    end in
  let cout2 :=
    if display this then
      app cout1
        [ "Iteration : " ++ Text.write_size_t iterations';
          "Hidden Perceptron Number : " ++ Text.write_size_t (order l);
          "Final Training Performance : " ++ Text.write_double (fst performance);
          "Final Generalization Performance : " ++ Text.write_double (snd performance);
          "Elapsed time : " ++ Text.write_double elapsed_time' ]
    else cout1 in
  let order' :=
    if end' then order l
    else Z.min (maximum_order this) (SizeT.add (order l) (step this)) in
  {| prev_generalization_performance := current_generalization_performance;
     optimal_order := optimal_order';
     optimum_parameters := optimum_parameters';
     optimum_generalization_performance := optimum_generalization_performance';
     order := order';
     iterations := iterations';
     generalization_failures := generalization_failures';
     end_ := end';
     elapsed_time := elapsed_time';
     results :=
       IncrementalOrderResults.mk
         order_data' performance_data' generalization_performance_data'
         parameters_data'
         (IncrementalOrderResults.minimal_parameters r)
         stopping_condition'
         (IncrementalOrderResults.optimal_order r)
         (IncrementalOrderResults.final_generalization_performance r)
         (IncrementalOrderResults.final_performance r)
         (IncrementalOrderResults.iterations_number r)
         (IncrementalOrderResults.elapsed_time r);
     evaluations := evaluations';
     cout := cout2 |}.

(** The locals when the loop is entered, lines 173-203. *)
Definition initial_locals : Locals :=
  {| prev_generalization_performance := 1.0e99%float;
     optimal_order := uninitialized_size_t world;
     optimum_parameters := [];
     optimum_generalization_performance := uninitialized_double world;
     order := minimum_order this;
     iterations := 0;
     generalization_failures := 0;
     end_ := false;
     elapsed_time := uninitialized_double world;
     results := IncrementalOrderResults.new;
     evaluations := O;
     cout := print (display this) [] "Performing Incremental order selection..." |}.

(** [while (!end) { ... }]: [None] when the fuel runs out first. *)
Fixpoint while_not_end (fuel : nat) (beginning_time : Z) (l : Locals) : option Locals :=
  if end_ l then Some l
  else
    match fuel with
    | O => None
    | S fuel' => while_not_end fuel' beginning_time (loop_body beginning_time l)
    end.

(** What a finished search leaves behind: the returned record, the
    network, and the lines printed. *)
Record Outcome : Type := {
  returned : IncrementalOrderResults.t;
  network : MultilayerPerceptron.t;
  printed : list string
}.

(** Lines 292-307. *)
Definition finish (multilayer_perceptron : MultilayerPerceptron.t) (l : Locals) : Outcome :=
  let inputs_number := MultilayerPerceptron.inputs_number multilayer_perceptron in
  let outputs_number := MultilayerPerceptron.outputs_number multilayer_perceptron in
  let r := results l in
  {| returned :=
       IncrementalOrderResults.mk
         (IncrementalOrderResults.order_data r)
         (IncrementalOrderResults.performance_data r)
         (IncrementalOrderResults.generalization_performance_data r)
         (IncrementalOrderResults.parameters_data r)
         (if reserve_minimal_parameters this then optimum_parameters l
          else IncrementalOrderResults.minimal_parameters r)
         (IncrementalOrderResults.stopping_condition r)
         (Some (optimal_order l))
         (Some (optimum_generalization_performance l))
         (Some (fst (calculate_performances world (evaluations l) (optimal_order l))))
         (Some (iterations l))
         (Some (elapsed_time l));
     network :=
       MultilayerPerceptron.set_parameters (optimum_parameters l)
         (MultilayerPerceptron.set inputs_number (optimal_order l) outputs_number
            multilayer_perceptron);
     printed :=
       print (display this) (cout l)
             ("Optimal order : " ++ Text.write_size_t (optimal_order l)) |}.

Definition perform_order_selection
    (fuel : nat) (multilayer_perceptron : MultilayerPerceptron.t) : option Outcome :=
  let beginning_time := time world O in
  match while_not_end fuel beginning_time initial_locals with
  | Some l => Some (finish multilayer_perceptron l)
  | None => None
  end.


(** The locals after [n] passes through the loop body. *)
Definition state_after (n : nat) : Locals :=
  Nat.iter n (loop_body (time world O)) initial_locals.

(** The generalization performance measured by pass [n], counted from 0. *)
Definition generalization_performance_at (n : nat) : float :=
  snd (calculate_performances world n (order (state_after n))).

(** What pass [n] measured when it reaches the stopping criteria. *)
Definition metrics_of_pass (n : nat) : Metrics :=
  {| metric_elapsed_time := difftime (time world (S n)) (time world O);
     metric_generalization_performance := generalization_performance_at n;
     metric_iterations := iterations (state_after (S n));
     metric_generalization_failures := generalization_failures (state_after (S n));
     metric_order := order (state_after n) |}.

(** The five stopping conditions of section 4.2 of the specification, in
    its priority order. *)
Definition conditions_in_priority_order (m : Metrics)
  : list (bool * StoppingCondition) :=
  [ (PrimFloat.ltb (maximum_time this) (metric_elapsed_time m), MaximumTime);
    (PrimFloat.ltb (metric_generalization_performance m)
                   (generalization_performance_goal this),
     GeneralizationPerformanceGoal);
    (maximum_iterations_number this <? metric_iterations m, MaximumIterations);
    (maximum_generalization_failures this <=? metric_generalization_failures m,
     MaximumGeneralizationFailures);
    (metric_order m =? maximum_order this, AlgorithmFinished) ].

(** Section 4.2: the current generalization performance is strictly lower
    than the optimum and differs from it by more than [tolerance]. *)
Definition improves_on_optimum (optimum current : float) : Prop :=
  PrimFloat.ltb current optimum = true /\
  PrimFloat.ltb (tolerance this) (PrimFloat.abs (PrimFloat.sub optimum current)) = true.

(** Each order is followed by [min(maximum_order, order + step)], which
    is not below it. *)
Fixpoint advances (orders : list Z) : Prop :=
  match orders with
  | a :: ((b :: _) as rest) =>
      a <= b /\ b = Z.min (maximum_order this) (a + step this) /\ advances rest
  | _ => True
  end.

(** The order sequence of section 8: it starts at [minimum_order], never
    exceeds [maximum_order], and advances by [step] up to the clamp. *)
Definition order_sequence_as_specified (orders : list Z) : Prop :=
  hd_error orders = Some (minimum_order this) /\
  Forall (fun o => o <= maximum_order this) orders /\
  advances orders.

End Search.

End Class.


(* ================================================================= *)
(** ** Concrete objects *)

(** A base class with a single performance calculation method, whose
    setters accept every value. *)
Definition example_base : @OrderSelectionAlgorithm unit :=
  {| accepts_trials_number := fun _ => true;
     accepts_generalization_performance_goal := fun _ => true;
     accepts_maximum_iterations_number := fun _ => true;
     accepts_maximum_time := fun _ => true;
     accepts_tolerance := fun _ => true;
     write_method := fun _ => "Method";
     read_method := fun text => if String.eqb text "Method" then Some tt else None;
     what := fun name => name |}.

(** The scenario of section 8 of the specification: orders 1, 3, 5. *)
Definition example_object : @IncrementalOrder unit :=
  {| minimum_order := 1;
     maximum_order := 5;
     trials_number := 1;
     performance_calculation_method := tt;
     reserve_parameters_data := true;
     reserve_performance_data := true;
     reserve_generalization_performance_data := true;
     reserve_minimal_parameters := true;
     display := true;
     generalization_performance_goal := 0%float;
     maximum_iterations_number := 1000;
     maximum_time := 1000%float;
     tolerance := 0.05%float;
     step := 2;
     maximum_generalization_failures := 3 |}.

(** Its evaluator answers 0.9, 0.5, 0.6 and then 0.4 for the generalization
    performance; the clock advances one second per reading. *)
Definition example_world : World :=
  {| calculate_performances :=
       fun n _ => (0.1%float, nth n [0.9; 0.5; 0.6; 0.4]%float 1%float);
     get_parameters_order := fun n o => [Text.Z2float (Z.of_nat n); Text.Z2float o];
     time := fun n => Z.of_nat (100 + n);
     uninitialized_size_t := 77;
     uninitialized_double := 0.77%float |}.

Definition example_network : MultilayerPerceptron.t :=
  MultilayerPerceptron.mk 4 1 2 [].

(** An object whose minimum order exceeds its maximum order. *)
Definition crossed_object : @IncrementalOrder unit :=
  assign_maximum_order 3 (assign_minimum_order 5 (assign_step 1 example_object)).

(** An object with a tolerance of seven significant digits, a fractional
    time budget and an iteration cap above [INT_MAX]. *)
Definition fine_grained_object : @IncrementalOrder unit :=
  assign_tolerance 0.1234567%float
    (assign_maximum_time 0.5%float
       (assign_maximum_iterations_number 3000000000 example_object)).

(** An object whose order range ends at the largest [size_t] and that may
    make three iterations. *)
Definition topmost_object : @IncrementalOrder unit :=
  assign_maximum_iterations_number 2
    (assign_step 3
       (assign_maximum_order 18446744073709551615
          (assign_minimum_order 18446744073709551614 example_object))).

(** A file system without any file. *)
Definition no_file (file_name : string) : option tinyxml2.XMLDocument := None.

(* ================================================================= *)
(** ** Constructors and files *)

(** Lines 25-41: the default constructor and the training strategy
    constructor run the base class constructor and then [set_default].
    [raw] is the object the base class constructor leaves: its members
    [step] and [maximum_generalization_failures] hold whatever the storage
    held. *)
Definition construct {PerformanceCalculationMethod : Type}
    (raw : @IncrementalOrder PerformanceCalculationMethod)
  : @IncrementalOrder PerformanceCalculationMethod :=
  set_default raw.

(** Lines 48-52: the XML constructor calls [from_XML] and nothing else. *)
Definition construct_from_document (OPENNN_DEBUG : bool)
    {PerformanceCalculationMethod : Type}
    (base : @OrderSelectionAlgorithm PerformanceCalculationMethod)
    (document : tinyxml2.XMLDocument)
    (raw : @IncrementalOrder PerformanceCalculationMethod)
  : @Completion PerformanceCalculationMethod :=
  from_XML OPENNN_DEBUG base document raw.

(** Lines 59-63: the file constructor calls [load]. *)
Definition construct_from_file (OPENNN_DEBUG : bool)
    {PerformanceCalculationMethod : Type}
    (base : @OrderSelectionAlgorithm PerformanceCalculationMethod)
    (LoadFile : string -> option tinyxml2.XMLDocument) (file_name : string)
    (raw : @IncrementalOrder PerformanceCalculationMethod)
  : @Completion PerformanceCalculationMethod :=
  load OPENNN_DEBUG base LoadFile file_name raw.

(** Modelled from the spec: how tinyxml2 prints a document to a file and
    parses it back is outside the class (section 1, "the schema is
    specified, not the parser"). A file system holds a document by name;
    [SaveFile] stores the document when the file can be written and changes
    nothing when it cannot (it then returns an error code). *)
Definition FileSystem : Type := string -> option tinyxml2.XMLDocument.

Definition SaveFile (writable : string -> bool) (file_name : string)
    (document : tinyxml2.XMLDocument) (files : FileSystem) : FileSystem :=
  if writable file_name
  then fun name => if String.eqb name file_name then Some document else files name
  else files.

(** Lines 822-829: what [SaveFile] returns is not looked at. *)
Definition save {PerformanceCalculationMethod : Type}
    (base : @OrderSelectionAlgorithm PerformanceCalculationMethod)
    (writable : string -> bool) (file_name : string)
    (this : @IncrementalOrder PerformanceCalculationMethod)
    (files : FileSystem) : FileSystem :=
  SaveFile writable file_name (to_XML base this) files.

(** The text of the element [name] below [root_element], when the element
    is there and has one. *)
Definition text_of (root_element : list tinyxml2.XMLNode) (name : string)
  : option string :=
  match tinyxml2.FirstChildElement name root_element with
  | Some element => tinyxml2.GetText element
  | None => None
  end.

(** A document with crossed bounds, a step the debug build rejects, a
    flag spelled out and a fractional time budget; it has no
    [MaximumGeneralizationFailures] element. *)
Definition odd_document : tinyxml2.XMLDocument :=
  [ tinyxml2.XMLElement "IncrementalOrder"
      [ tinyxml2.element_with_text "MinimumOrder" "5";
        tinyxml2.element_with_text "MaximumOrder" "3";
        tinyxml2.element_with_text "TrialsNumber" "many";
        tinyxml2.element_with_text "Step" "0";
        tinyxml2.element_with_text "Display" "false";
        tinyxml2.element_with_text "MaximumTime" "0.5" ] ].

(** A document that gives the tolerance as a hexadecimal floating
    constant and the goal in exponent notation. *)
Definition hexadecimal_document : tinyxml2.XMLDocument :=
  [ tinyxml2.XMLElement "IncrementalOrder"
      [ tinyxml2.element_with_text "GeneralizationPerformanceGoal" "1e-3";
        tinyxml2.element_with_text "Tolerance" "0x10" ] ].

(** A base class that accepts a trials number only when it is positive. *)
Definition strict_base : @OrderSelectionAlgorithm unit :=
  {| accepts_trials_number := fun v => 0 <? v;
     accepts_generalization_performance_goal := fun _ => true;
     accepts_maximum_iterations_number := fun _ => true;
     accepts_maximum_time := fun _ => true;
     accepts_tolerance := fun _ => true;
     write_method := fun _ => "Method";
     read_method := fun text => if String.eqb text "Method" then Some tt else None;
     what := fun name => name |}.

(** The elements of [odd_document] in another order, after a text and an
    element the class does not know, and with a second [Step]. *)
Definition shuffled_document : tinyxml2.XMLDocument :=
  [ tinyxml2.XMLElement "IncrementalOrder"
      [ tinyxml2.XMLText "note";
        tinyxml2.element_with_text "PopulationSize" "10";
        tinyxml2.element_with_text "MaximumTime" "0.5";
        tinyxml2.element_with_text "Display" "false";
        tinyxml2.element_with_text "Step" "0";
        tinyxml2.element_with_text "TrialsNumber" "many";
        tinyxml2.element_with_text "MaximumOrder" "3";
        tinyxml2.element_with_text "MinimumOrder" "5";
        tinyxml2.element_with_text "Step" "1" ] ].

(* ================================================================= *)
(** ** Selecting the history *)

(** The object with its four reserve flags set as given. *)
Definition with_reserve_flags {PerformanceCalculationMethod : Type}
    (parameters_data performance_data generalization_performance_data
     minimal_parameters : bool)
    (this : @IncrementalOrder PerformanceCalculationMethod)
  : @IncrementalOrder PerformanceCalculationMethod :=
  assign_reserve_minimal_parameters minimal_parameters
    (assign_reserve_generalization_performance_data generalization_performance_data
       (assign_reserve_performance_data performance_data
          (assign_reserve_parameters_data parameters_data this))).

(** A results record with the vectors that are not reserved left empty. *)
Definition selected_results
    (parameters_data performance_data generalization_performance_data
     minimal_parameters : bool)
    (r : IncrementalOrderResults.t) : IncrementalOrderResults.t :=
  IncrementalOrderResults.mk
    (IncrementalOrderResults.order_data r)
    (if performance_data then IncrementalOrderResults.performance_data r else [])
    (if generalization_performance_data
     then IncrementalOrderResults.generalization_performance_data r else [])
    (if parameters_data then IncrementalOrderResults.parameters_data r else [])
    (if minimal_parameters then IncrementalOrderResults.minimal_parameters r else [])
    (IncrementalOrderResults.stopping_condition r)
    (IncrementalOrderResults.optimal_order r)
    (IncrementalOrderResults.final_generalization_performance r)
    (IncrementalOrderResults.final_performance r)
    (IncrementalOrderResults.iterations_number r)
    (IncrementalOrderResults.elapsed_time r).

(** An outcome with the same network and printed lines, and the record
    with the vectors that are not reserved left empty. *)
Definition selected_history
    (parameters_data performance_data generalization_performance_data
     minimal_parameters : bool)
    (out : Outcome) : Outcome :=
  {| returned :=
       selected_results parameters_data performance_data
         generalization_performance_data minimal_parameters (returned out);
     network := network out;
     printed := printed out |}.

(** The locals with the vectors that are not reserved left empty;
    [minimal_parameters] is not assigned before the loop ends. *)
Definition selected_locals
    (parameters_data performance_data generalization_performance_data : bool)
    (l : Locals) : Locals :=
  {| prev_generalization_performance := prev_generalization_performance l;
     optimal_order := optimal_order l;
     optimum_parameters := optimum_parameters l;
     optimum_generalization_performance := optimum_generalization_performance l;
     order := order l;
     iterations := iterations l;
     generalization_failures := generalization_failures l;
     end_ := end_ l;
     elapsed_time := elapsed_time l;
     results :=
       selected_results parameters_data performance_data
         generalization_performance_data false (results l);
     evaluations := evaluations l;
     cout := cout l |}.




(* ================================================================= *)
(** ** Facts on machine integers and text *)

Lemma wrap_in_range z : SizeT.in_range (SizeT.wrap z).
Proof. unfold SizeT.in_range, SizeT.wrap, SizeT.modulus. apply Z.mod_pos_bound. lia. Qed.

Lemma wrap_small z : SizeT.in_range z -> SizeT.wrap z = z.
Proof. unfold SizeT.in_range, SizeT.wrap. intros H. now apply Z.mod_small. Qed.

Lemma incr_in_range a : SizeT.in_range (SizeT.incr a).
Proof. apply wrap_in_range. Qed.

Lemma incr_neq a : SizeT.in_range a -> SizeT.incr a <> a.
Proof.
  unfold SizeT.incr, SizeT.add, SizeT.wrap, SizeT.in_range, SizeT.modulus.
  intros H E.
  destruct (Z.eq_dec a (2 ^ 64 - 1)) as [->|N].
  - vm_compute in E. discriminate.
  - rewrite Z.mod_small in E; lia.
Qed.

Lemma incr_wrap n : SizeT.incr (SizeT.wrap n) = SizeT.wrap (n + 1).
Proof.
  unfold SizeT.incr, SizeT.add, SizeT.wrap.
  now rewrite Z.add_mod_idemp_l by (unfold SizeT.modulus; lia).
Qed.

Lemma of_long_small z : 0 <= z <= Int.INT_MAX -> Int.of_long z = z.
Proof.
  unfold Int.of_long, Int.INT_MAX. intros H.
  rewrite Z.mod_small; lia.
Qed.

Lemma of_long_bounds z : - 2 ^ 31 <= Int.of_long z < 2 ^ 31.
Proof.
  unfold Int.of_long.
  pose proof (Z.mod_pos_bound (z + 2 ^ 31) (2 ^ 32)). lia.
Qed.

(** No [int], converted to [size_t], is a value between [INT_MAX] and
    [2 ^ 64 - 2 ^ 31]: whatever [atoi] returns for a text, such a value is
    never read back. *)
Lemma int_to_size_t_gap r :
  - 2 ^ 31 <= r < 2 ^ 31 ->
  SizeT.wrap r <= Int.INT_MAX \/ 2 ^ 64 - 2 ^ 31 <= SizeT.wrap r.
Proof.
  intros H. unfold SizeT.wrap, SizeT.modulus, Int.INT_MAX.
  destruct (Z_lt_le_dec r 0) as [N|N].
  - right. rewrite <- (Z.mod_add r 1 (2 ^ 64)) by lia.
    rewrite Z.mod_small; lia.
  - left. rewrite Z.mod_small; lia.
Qed.

(** *** Decimal text of a [size_t] read back by [atoi] *)

Lemma digit_cases d :
  0 <= d <= 9 ->
  d = 0 \/ d = 1 \/ d = 2 \/ d = 3 \/ d = 4 \/ d = 5 \/ d = 6 \/ d = 7 \/ d = 8 \/ d = 9.
Proof. lia. Qed.

Ltac each_digit d H :=
  destruct (digit_cases d H) as [->|[->|[->|[->|[->|[->|[->|[->|[->| ->]]]]]]]]].

Lemma digit_of_digit_char d : 0 <= d <= 9 -> Text.digit_of (Text.digit_char d) = Some d.
Proof. intros H. each_digit d H; reflexivity. Qed.

Lemma digits_value_digits_of : forall fuel n acc,
  0 <= n < 10 ^ Z.of_nat fuel ->
  Text.digits_value 0 (Text.digits_of fuel n acc) = Text.digits_value n acc.
Proof.
  induction fuel as [|fuel IH]; intros n acc H.
  - cbn in *. f_equal. lia.
  - cbn [Text.digits_of].
    assert (D : 0 <= n mod 10 <= 9) by (pose proof (Z.mod_pos_bound n 10); lia).
    destruct (n <? 10) eqn:L.
    + apply Z.ltb_lt in L. cbn [Text.digits_value].
      rewrite digit_of_digit_char by exact D.
      rewrite Z.mod_small by lia. f_equal.
    + apply Z.ltb_ge in L. rewrite IH.
      * cbn [Text.digits_value]. rewrite digit_of_digit_char by exact D.
        f_equal. pose proof (Z.div_mod n 10). lia.
      * rewrite Nat2Z.inj_succ, Z.pow_succ_r in H by lia.
        split; [apply Z.div_pos; lia|].
        apply Z.div_lt_upper_bound; lia.
Qed.

Lemma digits_of_starts_with_digit : forall fuel n acc,
  0 <= n ->
  (fuel <> O \/ exists d r, 0 <= d <= 9 /\ acc = String (Text.digit_char d) r) ->
  exists d r, 0 <= d <= 9 /\ Text.digits_of fuel n acc = String (Text.digit_char d) r.
Proof.
  induction fuel as [|fuel IH]; intros n acc Hn H.
  - destruct H as [H|H]; [congruence|exact H].
  - cbn [Text.digits_of].
    assert (D : 0 <= n mod 10 <= 9) by (pose proof (Z.mod_pos_bound n 10); lia).
    destruct (n <? 10); [eauto|].
    apply IH; [apply Z.div_pos; lia|]. right. eauto.
Qed.

Lemma strtol10_of_digits d r :
  0 <= d <= 9 ->
  Text.strtol10 (String (Text.digit_char d) r)
  = Z.max Int.LONG_MIN
      (Z.min Int.LONG_MAX (Text.digits_value 0 (String (Text.digit_char d) r))).
Proof. intros H. each_digit d H; reflexivity. Qed.

Lemma atoi_write_size_t n : 0 <= n <= Int.INT_MAX -> Text.atoi (Text.write_size_t n) = n.
Proof.
  intros H. unfold Text.atoi, Text.write_size_t.
  destruct (digits_of_starts_with_digit 20 n "" (proj1 H)) as (d & r & Hd & E);
    [left; discriminate|].
  rewrite E, strtol10_of_digits by exact Hd. rewrite <- E.
  rewrite digits_value_digits_of
    by (unfold Int.INT_MAX in H; change (10 ^ Z.of_nat 20) with 100000000000000000000; lia).
  cbn [Text.digits_value].
  unfold Int.INT_MAX, Int.LONG_MIN, Int.LONG_MAX in *.
  rewrite Z.min_r, Z.max_r by lia.
  apply of_long_small. unfold Int.INT_MAX. lia.
Qed.


(** *** What [atof] reads *)

(** Decimal constants, hexadecimal floating constants with and without a
    binary exponent, and text that starts with no number. *)
Lemma atof_reads_constants :
  Text.atof "0.05" = 0.05%float /\
  Text.atof " -1.5e2x" = (-150)%float /\
  Text.atof "0x10" = 16%float /\
  Text.atof "0X1.8p1" = 3%float /\
  Text.atof "-0x.8" = (-0.5)%float /\
  Text.atof "0x1p-1" = 0.5%float /\
  Text.atof "0x1p1024" = infinity /\
  Text.atof "0x" = 0%float /\
  Text.atof "0xg" = 0%float /\
  Text.atof "none" = 0%float.
Proof. repeat split. Qed.

(** A tolerance written as a hexadecimal constant is stored as its
    value. *)
Lemma from_XML_reads_hexadecimal_tolerance :
  exists after,
    from_XML true example_base hexadecimal_document example_object = Returns after [] /\
    tolerance after = 16%float /\
    generalization_performance_goal after = 0.001%float.
Proof. eexists. repeat split. Qed.

(* ================================================================= *)
(** ** Facts on the search loop *)

Section SearchFacts.

Context {PerformanceCalculationMethod : Type}.
Variable this : @IncrementalOrder PerformanceCalculationMethod.
Variable world : World.

#[local] Abbreviation body := (loop_body this world (time world O)).
#[local] Abbreviation state := (state_after this world).

Lemma state_after_S n : state (S n) = body (state n).
Proof. reflexivity. Qed.

Lemma body_evaluations b l : evaluations (loop_body this world b l) = S (evaluations l).
Proof. reflexivity. Qed.

Lemma evaluations_state_after n : evaluations (state n) = n.
Proof.
  induction n as [|n IH]; [reflexivity|].
  rewrite state_after_S, body_evaluations. now f_equal.
Qed.

Lemma iterations_state_after n : iterations (state n) = SizeT.wrap (Z.of_nat n).
Proof.
  induction n as [|n IH]; [reflexivity|].
  rewrite state_after_S.
  change (iterations (body (state n))) with (SizeT.incr (iterations (state n))).
  rewrite IH, incr_wrap. f_equal. lia.
Qed.

Lemma generalization_failures_in_range n :
  SizeT.in_range (generalization_failures (state n)).
Proof.
  induction n as [|n IH].
  - cbn. unfold SizeT.in_range, SizeT.modulus. lia.
  - rewrite state_after_S. unfold loop_body. cbn [generalization_failures].
    destruct (adopts _ _ _); [assumption|].
    destruct (PrimFloat.ltb _ _); [apply incr_in_range | assumption].
Qed.

(** The loop stops after some number of passes, and not before. *)
Lemma while_not_end_passes fuel b l l' :
  while_not_end this world fuel b l = Some l' ->
  exists n, (n <= fuel)%nat /\
    l' = Nat.iter n (loop_body this world b) l /\
    end_ l' = true /\
    forall j, (j < n)%nat -> end_ (Nat.iter j (loop_body this world b) l) = false.
Proof.
  revert l. induction fuel as [|fuel IH]; intros l H; cbn in H.
  - destruct (end_ l) eqn:E; [|discriminate].
    injection H as <-. exists O. repeat split; auto; intros; lia.
  - destruct (end_ l) eqn:E.
    + injection H as <-. exists O. repeat split; auto with arith; intros; lia.
    + destruct (IH _ H) as (n & Hn & -> & Hend & Hbefore).
      exists (S n). rewrite Nat.iter_succ_r. repeat split; auto with arith.
      intros [|j] Hj; [exact E|].
      rewrite Nat.iter_succ_r. apply Hbefore. lia.
Qed.

(** With enough fuel the loop returns as soon as some pass sets [end]. *)
Lemma while_not_end_returns n b : forall fuel l,
  (n <= fuel)%nat ->
  end_ (Nat.iter n (loop_body this world b) l) = true ->
  exists l', while_not_end this world fuel b l = Some l'.
Proof.
  induction n as [|n IH]; intros fuel l Hf H.
  - cbn in H. destruct fuel; cbn; rewrite H; eauto.
  - destruct fuel as [|fuel]; [lia|]. cbn.
    destruct (end_ l); [eauto|].
    apply IH; [lia|]. now rewrite <- Nat.iter_succ_r.
Qed.

(** A search that returns made [S n] passes. *)
Lemma search_passes fuel net out :
  perform_order_selection this world fuel net = Some out ->
  exists n, out = finish this world net (state (S n)) /\
    end_ (state (S n)) = true /\
    forall j, (j <= n)%nat -> end_ (state j) = false.
Proof.
  unfold perform_order_selection.
  destruct (while_not_end _ _ _ _ _) as [l|] eqn:E; [|discriminate].
  intros H. injection H as <-.
  destruct (while_not_end_passes _ _ _ _ E) as (m & _ & -> & Hend & Hbefore).
  destruct m as [|n]; [cbn in Hend; discriminate|].
  exists n. repeat split; auto.
  intros j Hj. apply Hbefore. lia.
Qed.

(** Every pass records the order it evaluated. *)
Lemma order_data_state_after n :
  IncrementalOrderResults.order_data (results (state n))
  = map (fun j => order (state j)) (seq 0 n).
Proof.
  induction n as [|n IH]; [reflexivity|].
  rewrite seq_S, map_app. cbn [map Nat.add]. rewrite <- IH.
  reflexivity.
Qed.

Lemma order_data_length n :
  List.length (IncrementalOrderResults.order_data (results (state n))) = n.
Proof. now rewrite order_data_state_after, length_map, length_seq. Qed.

(** The chain of the source assigns the reason that the priority list of
    the specification selects. *)
Lemma stopping_criteria_first elapsed performance_1 iterations' failures' order' :
  match stopping_criteria this elapsed performance_1 iterations' failures' order' with
  | Some (reason, _) => Some reason
  | None => None
  end
  = first_that_holds
      (conditions_in_priority_order this
         {| metric_elapsed_time := elapsed;
            metric_generalization_performance := performance_1;
            metric_iterations := iterations';
            metric_generalization_failures := failures';
            metric_order := order' |}).
Proof.
  unfold stopping_criteria, first_that_holds, conditions_in_priority_order.
  cbn [find fst metric_elapsed_time metric_generalization_performance
       metric_iterations metric_generalization_failures metric_order].
  repeat match goal with
         | |- context [if ?c then _ else _] => destruct c
         end; reflexivity.
Qed.

(** What pass [n] does to [end] and to the recorded stopping condition. *)
Lemma pass_stops n :
  let reason :=
    first_that_holds (conditions_in_priority_order this (metrics_of_pass this world n)) in
  end_ (state (S n)) = match reason with Some _ => true | None => end_ (state n) end /\
  IncrementalOrderResults.stopping_condition (results (state (S n)))
  = match reason with
    | Some r => Some r
    | None => IncrementalOrderResults.stopping_condition (results (state n))
    end.
Proof.
  intros reason. subst reason. unfold metrics_of_pass, generalization_performance_at.
  rewrite <- stopping_criteria_first.
  rewrite state_after_S. unfold loop_body.
  cbn [end_ results IncrementalOrderResults.stopping_condition iterations
       generalization_failures].
  rewrite evaluations_state_after.
  destruct (stopping_criteria _ _ _ _ _ _) as [[r line]|]; split; reflexivity.
Qed.

(** Nothing is recorded while the loop goes on. *)
Lemma no_reason_before_end n :
  end_ (state n) = false ->
  IncrementalOrderResults.stopping_condition (results (state n)) = None.
Proof.
  induction n as [|n IH]; [reflexivity|].
  destruct (pass_stops n) as [He Hs]. intros E.
  rewrite Hs. rewrite He in E.
  destruct (first_that_holds _); [discriminate|]. auto.
Qed.

(** C1: in every run the five stopping conditions are examined in each
    iteration in the priority order elapsed time, performance goal,
    iteration count, generalization failures, maximum order; every
    iteration but the last finds none of them true and records nothing, and
    the last one records exactly the first condition that holds. *)
Theorem stopping_reason_follows_priority_order fuel net out :
  perform_order_selection this world fuel net = Some out ->
  exists n : nat,
    List.length (IncrementalOrderResults.order_data (returned out)) = S n /\
    (forall j, (j < n)%nat ->
       first_that_holds (conditions_in_priority_order this (metrics_of_pass this world j))
       = None /\
       IncrementalOrderResults.stopping_condition (results (state (S j))) = None) /\
    exists reason,
      first_that_holds (conditions_in_priority_order this (metrics_of_pass this world n))
      = Some reason /\
      IncrementalOrderResults.stopping_condition (returned out) = Some reason.
Proof.
  intros H. destruct (search_passes _ _ _ H) as (n & -> & Hend & Hbefore).
  exists n. split; [|split].
  - cbn [finish returned IncrementalOrderResults.order_data].
    apply order_data_length.
  - intros j Hj.
    assert (E : end_ (state (S j)) = false) by (apply Hbefore; lia).
    split; [|now apply no_reason_before_end].
    destruct (pass_stops j) as [He _]. rewrite He in E.
    destruct (first_that_holds _); [discriminate|reflexivity].
  - destruct (pass_stops n) as [He Hs].
    rewrite He, (Hbefore n (Nat.le_refl n)) in Hend.
    destruct (first_that_holds _) as [r|] eqn:R; [|discriminate].
    exists r. split; [reflexivity|].
    cbn [finish returned IncrementalOrderResults.stopping_condition]. exact Hs.
Qed.

(** The test of the source holds exactly when the pass is the first one or
    improves on the optimum beyond the tolerance. *)
Lemma adopts_iff l current :
  adopts this l current = true <->
  iterations l = 0 \/ improves_on_optimum this (optimum_generalization_performance l) current.
Proof.
  unfold adopts, improves_on_optimum.
  rewrite orb_true_iff, andb_true_iff, Z.eqb_eq. reflexivity.
Qed.

Lemma first_pass_iff j :
  Z.of_nat j < SizeT.modulus -> (iterations (state j) = 0 <-> j = O).
Proof.
  intros H. rewrite iterations_state_after.
  rewrite wrap_small by (unfold SizeT.in_range; lia). lia.
Qed.

(** What pass [j] leaves in the three locals of the optimum. *)
Lemma pass_optimum j :
  let current := generalization_performance_at this world j in
  let adopt := adopts this (state j) current in
  optimal_order (state (S j)) = (if adopt then order (state j) else optimal_order (state j)) /\
  optimum_generalization_performance (state (S j))
  = (if adopt then current else optimum_generalization_performance (state j)) /\
  optimum_parameters (state (S j))
  = (if adopt then get_parameters_order world (S j) (order (state j))
     else optimum_parameters (state j)).
Proof.
  cbv zeta. unfold generalization_performance_at.
  rewrite state_after_S. unfold loop_body.
  cbn [optimal_order optimum_generalization_performance optimum_parameters].
  rewrite evaluations_state_after.
  destruct (adopts _ _ _); repeat split; reflexivity.
Qed.

(** C2: in every iteration the current order is adopted as the optimal
    order if and only if the iteration is the first one, or its
    generalization performance is strictly lower than the current optimum and
    their absolute difference exceeds the tolerance; an adopted order brings
    its generalization performance and its parameters with it, and otherwise
    the optimum is left as it was. *)
Theorem optimum_adopted_iff_first_or_improving (j : nat) :
  Z.of_nat j < SizeT.modulus ->
  let before := state j in
  let after := state (S j) in
  let current := generalization_performance_at this world j in
  let condition :=
    j = O \/ improves_on_optimum this (optimum_generalization_performance before) current in
  (condition ->
   optimal_order after = order before /\
   optimum_generalization_performance after = current /\
   optimum_parameters after = get_parameters_order world (S j) (order before)) /\
  (~ condition ->
   optimal_order after = optimal_order before /\
   optimum_generalization_performance after = optimum_generalization_performance before /\
   optimum_parameters after = optimum_parameters before).
Proof.
  intros Hj before after current condition.
  destruct (pass_optimum j) as (H1 & H2 & H3). fold before after current in H1, H2, H3.
  assert (A : adopts this before current = true <-> condition).
  { unfold condition. rewrite adopts_iff. unfold before at 1.
    rewrite (first_pass_iff j Hj). reflexivity. }
  destruct (adopts this before current) eqn:E; split; intros C.
  - auto.
  - exfalso. apply C, A. reflexivity.
  - apply A in C. discriminate.
  - auto.
Qed.

(** C3: an iteration that adopts a new optimum leaves the failure counter
    alone; one that does not adopt increments it exactly when the
    generalization performance of the immediately previous iteration is
    strictly lower than the current one, the comparison being against that
    previous value (which every iteration hands to the next), with no
    tolerance. *)
Theorem failure_counted_against_previous_value (j : nat) :
  let before := state j in
  let after := state (S j) in
  let current := generalization_performance_at this world j in
  let previous := prev_generalization_performance before in
  prev_generalization_performance after = current /\
  (adopts this before current = true ->
   generalization_failures after = generalization_failures before) /\
  (adopts this before current = false ->
   (PrimFloat.ltb previous current = true ->
    generalization_failures after = SizeT.incr (generalization_failures before) /\
    generalization_failures after <> generalization_failures before) /\
   (PrimFloat.ltb previous current = false ->
    generalization_failures after = generalization_failures before)).
Proof.
  cbv zeta. unfold generalization_performance_at.
  pose proof (generalization_failures_in_range j) as R.
  rewrite state_after_S. unfold loop_body.
  cbn [prev_generalization_performance generalization_failures].
  rewrite evaluations_state_after.
  split; [reflexivity|].
  destruct (adopts _ _ _); split; intros E; try discriminate; [reflexivity|].
  destruct (PrimFloat.ltb _ _); split; intros L; try discriminate.
  - split; [reflexivity|]. now apply incr_neq.
  - reflexivity.
Qed.

(** *** The orders evaluated *)

Lemma pass_order j :
  order (state (S j))
  = if end_ (state (S j)) then order (state j)
    else Z.min (maximum_order this) (SizeT.add (order (state j)) (step this)).
Proof. reflexivity. Qed.

Lemma advances_map_seq (f : nat -> Z) : forall n a,
  (forall j, (a <= j < a + n)%nat ->
     f j <= f (S j) /\ f (S j) = Z.min (maximum_order this) (f j + step this)) ->
  advances this (map f (seq a (S n))).
Proof.
  induction n as [|n IH]; intros a H; [exact I|].
  change (advances this (f a :: map f (seq (S a) (S n)))).
  specialize (IH (S a)). cbn [seq map] in IH |- *.
  destruct (H a ltac:(lia)) as [Hle Heq].
  repeat split; auto. apply IH. intros j Hj. apply H. lia.
Qed.

Section OrderedBounds.

Hypothesis bounds_ordered : 0 <= minimum_order this <= maximum_order this.
Hypothesis step_in_range : 0 <= step this.
Hypothesis no_overflow : maximum_order this + step this < SizeT.modulus.

Lemma order_within_bounds j :
  minimum_order this <= order (state j) <= maximum_order this.
Proof.
  induction j as [|j IH]; [cbn; lia|].
  rewrite pass_order. destruct (end_ _); [assumption|].
  unfold SizeT.add. rewrite wrap_small by (unfold SizeT.in_range; lia). lia.
Qed.

Lemma order_advances j :
  end_ (state (S j)) = false ->
  order (state j) <= order (state (S j)) /\
  order (state (S j)) = Z.min (maximum_order this) (order (state j) + step this).
Proof.
  intros E. pose proof (order_within_bounds j) as B.
  rewrite pass_order, E.
  unfold SizeT.add. rewrite wrap_small by (unfold SizeT.in_range; lia). lia.
Qed.

(** C4, as amended: when [minimum_order] does not exceed [maximum_order]
    and [maximum_order + step] is representable in [size_t], the orders
    evaluated by a run start at [minimum_order], never exceed
    [maximum_order], never decrease, and each iteration but the last is
    followed by the order [min(maximum_order, order + step)]. *)
Theorem order_sequence_when_bounds_are_ordered fuel net out :
  perform_order_selection this world fuel net = Some out ->
  let orders := IncrementalOrderResults.order_data (returned out) in
  order_sequence_as_specified this orders /\
  forall j, (j < List.length orders)%nat -> nth j orders 0 = order (state j).
Proof.
  intros H orders. destruct (search_passes _ _ _ H) as (n & -> & Hend & Hbefore).
  assert (E : orders = map (fun j => order (state j)) (seq 0 (S n))).
  { unfold orders. cbn [finish returned IncrementalOrderResults.order_data].
    apply order_data_state_after. }
  rewrite E. split; [split; [|split]|].
  - reflexivity.
  - apply Forall_forall. intros o Ho. apply in_map_iff in Ho.
    destruct Ho as (j & <- & _). apply order_within_bounds.
  - apply advances_map_seq. intros j Hj. apply order_advances.
    apply Hbefore. lia.
  - rewrite length_map, length_seq. intros j Hj.
    rewrite (nth_indep _ 0 (order (state 0))) by now rewrite length_map, length_seq.
    rewrite (map_nth (fun j => order (state j))), seq_nth by lia. reflexivity.
Qed.

End OrderedBounds.

(** *** Finalization *)

(** After every pass the optimum is what the last adopting pass saw. *)
Lemma optimum_comes_from_a_pass n :
  exists i, (i <= n)%nat /\
    adopts this (state i) (generalization_performance_at this world i) = true /\
    (forall k, (i < k <= n)%nat ->
       adopts this (state k) (generalization_performance_at this world k) = false) /\
    optimal_order (state (S n)) = order (state i) /\
    optimum_generalization_performance (state (S n))
    = generalization_performance_at this world i /\
    optimum_parameters (state (S n)) = get_parameters_order world (S i) (order (state i)).
Proof.
  induction n as [|n IH].
  - exists O. destruct (pass_optimum O) as (H1 & H2 & H3).
    assert (A : adopts this (state 0) (generalization_performance_at this world 0) = true)
      by reflexivity.
    rewrite A in H1, H2, H3. repeat split; auto. intros k Hk. lia.
  - destruct (pass_optimum (S n)) as (H1 & H2 & H3).
    destruct (adopts this (state (S n)) _) eqn:A.
    + exists (S n). repeat split; auto. intros k Hk. lia.
    + destruct IH as (i & Hi & Ai & Hno & E1 & E2 & E3).
      exists i. rewrite H1, H2, H3. repeat split; auto.
      intros k Hk. destruct (Nat.eq_dec k (S n)) as [->|N]; [exact A|].
      apply Hno. lia.
Qed.

Lemma elapsed_time_state_after n :
  elapsed_time (state (S n)) = difftime (time world (S n)) (time world O).
Proof.
  rewrite state_after_S. unfold loop_body. cbn [elapsed_time].
  now rewrite evaluations_state_after.
Qed.

(** C6: a run that terminates after [S n] iterations installs into the
    network the optimal order and the parameter vector obtained for that
    order in the iteration [i] that adopted it last, and returns a record
    holding that order, the generalization performance stored for it, the
    training performance of one more evaluation at that order, the elapsed
    time and the iteration count. *)
Theorem finalization_installs_and_reports_optimum fuel net out :
  perform_order_selection this world fuel net = Some out ->
  exists n i : nat,
    (i <= n)%nat /\
    adopts this (state i) (generalization_performance_at this world i) = true /\
    (forall k, (i < k <= n)%nat ->
       adopts this (state k) (generalization_performance_at this world k) = false) /\
    let best := order (state i) in
    network out
    = MultilayerPerceptron.mk
        (MultilayerPerceptron.inputs_number net) best
        (MultilayerPerceptron.outputs_number net)
        (get_parameters_order world (S i) best) /\
    IncrementalOrderResults.optimal_order (returned out) = Some best /\
    IncrementalOrderResults.final_generalization_performance (returned out)
    = Some (generalization_performance_at this world i) /\
    IncrementalOrderResults.final_performance (returned out)
    = Some (fst (calculate_performances world (S n) best)) /\
    IncrementalOrderResults.iterations_number (returned out)
    = Some (SizeT.wrap (Z.of_nat (S n))) /\
    IncrementalOrderResults.elapsed_time (returned out)
    = Some (difftime (time world (S n)) (time world O)) /\
    List.length (IncrementalOrderResults.order_data (returned out)) = S n.
Proof.
  intros H. destruct (search_passes _ _ _ H) as (n & -> & Hend & Hbefore).
  destruct (optimum_comes_from_a_pass n) as (i & Hi & Ai & Hno & E1 & E2 & E3).
  exists n, i. split; [exact Hi|]. split; [exact Ai|]. split; [exact Hno|].
  cbv zeta. unfold finish.
  cbn [network returned IncrementalOrderResults.optimal_order
       IncrementalOrderResults.final_generalization_performance
       IncrementalOrderResults.final_performance
       IncrementalOrderResults.iterations_number
       IncrementalOrderResults.elapsed_time
       IncrementalOrderResults.order_data].
  rewrite E1, E2, E3, evaluations_state_after, iterations_state_after,
    elapsed_time_state_after, order_data_length.
  repeat split; reflexivity.
Qed.

(** *** Uninitialized locals *)

Lemma while_not_end_uninitialized a b : forall fuel t l,
  while_not_end this (with_uninitialized a b world) fuel t l
  = while_not_end this world fuel t l.
Proof.
  induction fuel as [|fuel IH]; intros t l; cbn; [reflexivity|].
  destruct (end_ l); [reflexivity|]. apply IH.
Qed.

(** X12: the locals [optimal_order], [optimum_generalization_performance]
    and [elapsed_time] are declared without a value; the loop body runs at
    least once and its first iteration assigns all three without reading
    them, so that what they held before does not show in the outcome. *)
Lemma uninitialized_locals_never_read a b fuel net :
  perform_order_selection this (with_uninitialized a b world) fuel net
  = perform_order_selection this world fuel net.
Proof.
  unfold perform_order_selection. destruct fuel as [|fuel]; [reflexivity|].
  cbn [while_not_end initial_locals end_].
  rewrite while_not_end_uninitialized.
  change (loop_body this (with_uninitialized a b world)
            (time (with_uninitialized a b world) 0)
            (initial_locals this (with_uninitialized a b world)))
    with (loop_body this world (time world 0) (initial_locals this world)).
  destruct (while_not_end this world fuel _ _); reflexivity.
Qed.

(** *** Termination *)

(** The iteration cap ends every run: a run makes at most
    [maximum_iterations_number + 1] passes. *)
Theorem perform_order_selection_terminates net :
  0 <= maximum_iterations_number this < SizeT.modulus - 1 ->
  exists out,
    perform_order_selection this world
      (S (Z.to_nat (maximum_iterations_number this))) net = Some out.
Proof.
  intros B. set (N := Z.to_nat (maximum_iterations_number this)).
  assert (E : end_ (state (S N)) = true).
  { destruct (pass_stops N) as [He _]. rewrite He. clear He.
    assert (L : (maximum_iterations_number this <? iterations (state (S N))) = true).
    { rewrite iterations_state_after.
      rewrite wrap_small by (unfold SizeT.in_range, N; lia).
      apply Z.ltb_lt. unfold N. lia. }
    unfold first_that_holds, conditions_in_priority_order, metrics_of_pass.
    cbn [find fst metric_elapsed_time metric_generalization_performance
         metric_iterations metric_generalization_failures metric_order].
    rewrite L.
    repeat match goal with
           | |- context [PrimFloat.ltb ?a ?b] => destruct (PrimFloat.ltb a b)
           end; reflexivity. }
  unfold perform_order_selection.
  destruct (while_not_end_returns (S N) (time world O) (S N) (initial_locals this world)
              (Nat.le_refl _) E) as [l' ->].
  eauto.
Qed.

End SearchFacts.

(* ================================================================= *)
(** ** The display flag *)

Section DisplayFacts.

Context {PerformanceCalculationMethod : Type}.
Variable this : @IncrementalOrder PerformanceCalculationMethod.
Variable world : World.

(** A pass computes the same locals whatever [display] is, the printed
    lines apart. *)
Lemma loop_body_display (d : bool) b l1 l2 :
  without_cout l1 = without_cout l2 ->
  without_cout (loop_body (assign_display d this) world b l1)
  = without_cout (loop_body (assign_display false this) world b l2).
Proof.
  destruct l1, l2. unfold without_cout. cbn. intros H. injection H as -> -> -> -> -> -> -> -> -> -> ->.
  unfold loop_body, without_cout. cbn. reflexivity.
Qed.

Lemma while_not_end_display (d : bool) b : forall fuel l1 l2,
  without_cout l1 = without_cout l2 ->
  option_map without_cout (while_not_end (assign_display d this) world fuel b l1)
  = option_map without_cout (while_not_end (assign_display false this) world fuel b l2).
Proof.
  induction fuel as [|fuel IH]; intros l1 l2 H;
    pose proof (f_equal end_ H) as E; cbn in E; cbn; rewrite E.
  - destruct (end_ l2); [cbn; now f_equal|reflexivity].
  - destruct (end_ l2); [cbn; now f_equal|].
    apply IH. now apply loop_body_display.
Qed.

Lemma finish_display (d : bool) net l1 l2 :
  without_cout l1 = without_cout l2 ->
  returned (finish (assign_display d this) world net l1)
  = returned (finish (assign_display false this) world net l2) /\
  network (finish (assign_display d this) world net l1)
  = network (finish (assign_display false this) world net l2).
Proof.
  destruct l1, l2. unfold without_cout. cbn. intros H. injection H as -> -> -> -> -> -> -> -> -> -> ->.
  split; reflexivity.
Qed.

Lemma search_display (d : bool) fuel net :
  option_map (fun out => (returned out, network out))
    (perform_order_selection (assign_display d this) world fuel net)
  = option_map (fun out => (returned out, network out))
      (perform_order_selection (assign_display false this) world fuel net).
Proof.
  unfold perform_order_selection.
  assert (I : without_cout (initial_locals (assign_display d this) world)
              = without_cout (initial_locals (assign_display false this) world))
    by reflexivity.
  pose proof (while_not_end_display d (time world O) fuel _ _ I) as W.
  destruct (while_not_end (assign_display d this) _ _ _ _) as [l1|];
    destruct (while_not_end (assign_display false this) _ _ _ _) as [l2|];
    unfold option_map in W; try discriminate; [|reflexivity].
  assert (W' : without_cout l1 = without_cout l2) by congruence.
  cbn [option_map]. destruct (finish_display d net l1 l2 W') as [-> ->].
  reflexivity.
Qed.

(** X13: with [display] off a search prints nothing at all, whatever its
    length and its stopping condition. *)
Lemma silent_when_display_is_off fuel net out :
  perform_order_selection (assign_display false this) world fuel net = Some out ->
  printed out = [].
Proof.
  unfold perform_order_selection.
  destruct (while_not_end _ _ _ _ _) as [l|] eqn:E; [|discriminate].
  intros H. injection H as <-.
  destruct (while_not_end_passes _ _ _ _ _ _ E) as (n & _ & -> & _ & _).
  cbn [finish printed display assign_display print].
  clear E. induction n as [|n IH]; [reflexivity|].
  rewrite Nat.iter_succ. unfold loop_body at 1. cbn [cout display assign_display].
  destruct (stopping_criteria _ _ _ _ _ _) as [[r line]|]; cbn [print]; exact IH.
Qed.

(** C9: two runs that differ only in the display flag, with the same
    configuration otherwise and the same evaluator and clock answers, either
    both run out of fuel or both return, and then they return the same
    results record in every field and install the same structure and
    parameters into the network. *)
Theorem display_does_not_alter_outcome (d1 d2 : bool) fuel net :
  option_map (fun out => (returned out, network out))
    (perform_order_selection (assign_display d1 this) world fuel net)
  = option_map (fun out => (returned out, network out))
      (perform_order_selection (assign_display d2 this) world fuel net).
Proof.
  rewrite (search_display d1), (search_display d2). reflexivity.
Qed.

End DisplayFacts.

(* ================================================================= *)
(** ** Setters and persistence *)

Section ClassFacts.

Variable OPENNN_DEBUG : bool.
Context {PerformanceCalculationMethod : Type}.
Variable base : @OrderSelectionAlgorithm PerformanceCalculationMethod.

#[local] Abbreviation Object := (@IncrementalOrder PerformanceCalculationMethod).

(** *** The two setters *)

Lemma set_step_stores (new_step : Z) (this : Object) :
  (OPENNN_DEBUG = true ->
   0 < new_step <= SizeT.sub (maximum_order this) (minimum_order this)) ->
  set_step OPENNN_DEBUG new_step this = Done (assign_step new_step this).
Proof.
  intros H. unfold set_step. destruct OPENNN_DEBUG; [|reflexivity].
  destruct (H eq_refl) as [H1 H2]. cbn [andb].
  destruct (Z.leb_spec new_step 0); [lia|].
  destruct (Z.ltb_spec (SizeT.sub (maximum_order this) (minimum_order this)) new_step);
    [lia|reflexivity].
Qed.

Lemma set_maximum_generalization_failures_stores (new_failures : Z) (this : Object) :
  (OPENNN_DEBUG = true -> 0 < new_failures) ->
  set_maximum_generalization_failures OPENNN_DEBUG new_failures this
  = Done (assign_maximum_generalization_failures new_failures this).
Proof.
  intros H. unfold set_maximum_generalization_failures.
  destruct OPENNN_DEBUG; [|reflexivity].
  specialize (H eq_refl). cbn [andb].
  destruct (Z.leb_spec new_failures 0); [lia|reflexivity].
Qed.

(** C8, as amended: in a build that defines [__OPENNN_DEBUG__], [set_step]
    throws on a step that is zero or larger than
    [maximum_order - minimum_order] (a [size_t] difference) and
    [set_maximum_generalization_failures] throws on zero, either leaving the
    object as it was, and with any other argument each stores exactly the
    given value; in a build that does not define it, both store any value. *)
Theorem setters_validate_in_debug_builds (new_step new_failures : Z) (this : Object) :
  SizeT.in_range new_step ->
  SizeT.in_range new_failures ->
  (OPENNN_DEBUG = true ->
   (new_step = 0 \/ SizeT.sub (maximum_order this) (minimum_order this) < new_step ->
    exists what, set_step OPENNN_DEBUG new_step this = logic_error what this) /\
   (0 < new_step <= SizeT.sub (maximum_order this) (minimum_order this) ->
    set_step OPENNN_DEBUG new_step this = Done (assign_step new_step this)) /\
   (new_failures = 0 ->
    exists what,
      set_maximum_generalization_failures OPENNN_DEBUG new_failures this
      = logic_error what this) /\
   (0 < new_failures ->
    set_maximum_generalization_failures OPENNN_DEBUG new_failures this
    = Done (assign_maximum_generalization_failures new_failures this))) /\
  (OPENNN_DEBUG = false ->
   set_step OPENNN_DEBUG new_step this = Done (assign_step new_step this) /\
   set_maximum_generalization_failures OPENNN_DEBUG new_failures this
   = Done (assign_maximum_generalization_failures new_failures this)) /\
  step (assign_step new_step this) = new_step /\
  maximum_generalization_failures
    (assign_maximum_generalization_failures new_failures this) = new_failures.
Proof.
  intros Rs Rf. unfold SizeT.in_range in Rs, Rf.
  split; [|split; [|split; reflexivity]].
  - intros D. repeat split.
    + intros H. unfold set_step. rewrite D. cbn [andb].
      destruct (Z.leb_spec new_step 0); [eauto|].
      destruct (Z.ltb_spec (SizeT.sub (maximum_order this) (minimum_order this)) new_step);
        [eauto|lia].
    + intros H. apply set_step_stores. auto.
    + intros ->. unfold set_maximum_generalization_failures. rewrite D. cbn. eauto.
    + intros H. apply set_maximum_generalization_failures_stores. auto.
  - intros D. split.
    + apply set_step_stores. rewrite D. discriminate.
    + apply set_maximum_generalization_failures_stores. rewrite D. discriminate.
Qed.

(** *** Reading a document *)

#[local] Abbreviation reads := (@read_members PerformanceCalculationMethod).

Lemma read_members_cons root m ms state :
  reads root (m :: ms) state = reads root ms (read_member root m state).
Proof. reflexivity. Qed.

Lemma read_members_undefined root ms : reads root ms None = None.
Proof. induction ms as [|m ms IH]; [reflexivity|exact IH]. Qed.

(** A member that no block with a present element touches is kept. *)
Lemma read_members_keep {A : Type} (f : Object -> A) root : forall ms this cout after cout',
  Forall (fun m => tinyxml2.FirstChildElement (fst m) root = None \/
                   forall text t, f (object_after (snd m text t)) = f t) ms ->
  reads root ms (Some (this, cout)) = Some (after, cout') ->
  f after = f this.
Proof.
  induction ms as [|m ms IH]; intros this cout after cout' F H.
  - cbn in H. congruence.
  - inversion F as [|? ? Hm Hms]; subst.
    rewrite read_members_cons in H. unfold read_member in H.
    destruct (tinyxml2.FirstChildElement (fst m) root) as [element|] eqn:E.
    + destruct Hm as [Hm|Hm]; [congruence|].
      destruct (tinyxml2.GetText element) as [text|].
      * specialize (Hm text this). revert H Hm.
        destruct (snd m text this) as [this'|what this']; cbn [object_after];
          intros H Hm; rewrite <- Hm; eapply IH; eauto.
      * rewrite read_members_undefined in H. discriminate.
    + eapply IH; eauto.
Qed.

(** The blocks whose element is missing are skipped and the others run. *)
Lemma read_members_present root : forall ms state,
  reads root ms state
  = reads root
      (filter (fun m => match tinyxml2.FirstChildElement (fst m) root with
                        | Some _ => true
                        | None => false
                        end) ms)
      state.
Proof.
  induction ms as [|m ms IH]; intros state; [reflexivity|].
  cbn [filter]. rewrite read_members_cons.
  destruct (tinyxml2.FirstChildElement (fst m) root) eqn:E.
  - rewrite read_members_cons. apply IH.
  - rewrite <- IH. f_equal. unfold read_member. rewrite E.
    destruct state as [[this cout]|]; reflexivity.
Qed.

Ltac through_setters :=
  unfold set_step, set_maximum_generalization_failures, set_trials_number,
    set_generalization_performance_goal, set_maximum_iterations_number,
    set_maximum_time, set_tolerance, set_performance_calculation_method,
    set_reserve_parameters_data, set_reserve_performance_data,
    set_reserve_generalization_performance_data, set_reserve_minimal_parameters,
    set_display, checked_setter;
  repeat match goal with
         | |- context [if ?c then _ else _] => destruct c
         | |- context [match read_method ?b ?t with _ => _ end] => destruct (read_method b t)
         end;
  reflexivity.

Ltac kept_by_members :=
  unfold members;
  repeat (apply Forall_cons;
          [first [ left; assumption
                 | right; intros text t; cbn [snd]; through_setters ]|]);
  apply Forall_nil.

Lemma from_members_missing_kept root this cout after cout' :
  reads root (members OPENNN_DEBUG base) (Some (this, cout)) = Some (after, cout') ->
  missing_members_kept root this after.
Proof.
  intros H. unfold missing_members_kept.
  repeat split; intros M;
    match goal with
    | |- ?f after = ?f this =>
        apply (read_members_keep f root (members OPENNN_DEBUG base) this cout after cout');
        [kept_by_members | exact H]
    end.
Qed.

Lemma from_XML_tolerates_missing_elements_aux document (this : Object) :
  match tinyxml2.FirstChildElement "IncrementalOrder" document with
  | None => True
  | Some root_element =>
      forall after cout,
        from_XML OPENNN_DEBUG base document this = Returns after cout ->
        missing_members_kept root_element this after
  end.
Proof.
  unfold from_XML.
  destruct (tinyxml2.FirstChildElement "IncrementalOrder" document) as [root|];
    [|exact I].
  intros after cout H.
  destruct (reads root _ _) as [[after' cout']|] eqn:E; [|discriminate].
  injection H as -> ->. eapply from_members_missing_kept; eauto.
Qed.

(** When every element that is present has a text, every block completes. *)
Lemma read_members_complete root : forall ms (this : Object) cout,
  (forall m element,
     In m ms -> tinyxml2.FirstChildElement (fst m) root = Some element ->
     tinyxml2.GetText element <> None) ->
  exists after cout', reads root ms (Some (this, cout)) = Some (after, cout').
Proof.
  induction ms as [|m ms IH]; intros this cout H; [cbn; eauto|].
  rewrite read_members_cons. unfold read_member.
  assert (H' : forall m' element,
             In m' ms -> tinyxml2.FirstChildElement (fst m') root = Some element ->
             tinyxml2.GetText element <> None)
    by (intros m' element I; apply H; now right).
  destruct (tinyxml2.FirstChildElement (fst m) root) as [element|] eqn:E; [|now apply IH].
  pose proof (H m element (or_introl eq_refl) E) as T.
  destruct (tinyxml2.GetText element) as [text|]; [|congruence].
  destruct (snd m text this); now apply IH.
Qed.

(** Skipping the blocks whose element is missing: with a root element
    [from_XML] does not throw, and the blocks run as if the list held only
    those whose element is present. *)
Lemma from_XML_skips_missing_elements document (this : Object) :
  match tinyxml2.FirstChildElement "IncrementalOrder" document with
  | None =>
      exists what, from_XML OPENNN_DEBUG base document this = Throws what this []
  | Some root_element =>
      (forall after cout,
         from_XML OPENNN_DEBUG base document this = Returns after cout ->
         missing_members_kept root_element this after) /\
      (forall what after cout,
         from_XML OPENNN_DEBUG base document this <> Throws what after cout) /\
      reads root_element (members OPENNN_DEBUG base) (Some (this, []))
      = reads root_element (present_members OPENNN_DEBUG base root_element)
          (Some (this, [])) /\
      ((forall m element,
          In m (members OPENNN_DEBUG base) ->
          tinyxml2.FirstChildElement (fst m) root_element = Some element ->
          tinyxml2.GetText element <> None) ->
       exists after cout,
         from_XML OPENNN_DEBUG base document this = Returns after cout)
  end.
Proof.
  unfold from_XML.
  destruct (tinyxml2.FirstChildElement "IncrementalOrder" document) as [root|];
    [|eauto].
  split; [|split; [|split]]; cycle 3.
  { intros T.
    destruct (read_members_complete root _ this [] T) as (after & cout & ->).
    eauto. }
  - intros after cout H.
    destruct (reads root _ _) as [[after' cout']|] eqn:E; [|discriminate].
    injection H as -> ->. eapply from_members_missing_kept; eauto.
  - intros what after cout. destruct (reads root _ _) as [[after' cout']|]; discriminate.
  - apply read_members_present.
Qed.

(** *** Reading back what [to_XML] wrote *)

Lemma size_t_of_text_write_size_t n :
  fits_int n -> size_t_of_text (Text.write_size_t n) = n.
Proof.
  intros H. unfold size_t_of_text. rewrite atoi_write_size_t by exact H.
  apply wrap_small. unfold fits_int, Int.INT_MAX in H.
  unfold SizeT.in_range, SizeT.modulus. lia.
Qed.

Lemma flag_of_text_write_bool b : flag_of_text (Text.write_bool b) = b.
Proof. destruct b; reflexivity. Qed.

Lemma read_member_present root name f text (this : Object) cout :
  tinyxml2.FirstChildElement name root = Some [tinyxml2.XMLText text] ->
  read_member root (name, f) (Some (this, cout))
  = match f text this with
    | Done this' => Some (this', cout)
    | logic_error what this' => Some (this', push_back cout what)
    end.
Proof. intros H. unfold read_member. cbn [fst snd]. rewrite H. reflexivity. Qed.

Ltac next_member :=
  rewrite read_members_cons;
  erewrite read_member_present by reflexivity;
  cbv beta.

(** C5, as amended: for a configuration whose [size_t] members fit an
    [int] and whose values the setters accept, [to_XML] followed by
    [from_XML] into any object returns, and reproduces exactly the minimum and
    maximum order, the trials number, the performance calculation method,
    the step, the four reserve flags, the display flag, the maximum
    iterations number and the maximum generalization failures; the
    generalization performance goal and the tolerance come back as the
    [double] nearest to their six printed significant digits. *)
Theorem to_XML_from_XML_reads_back (this target : Object) :
  readable_back OPENNN_DEBUG base this ->
  exists after cout,
    from_XML OPENNN_DEBUG base (to_XML base this) target = Returns after cout /\
    read_back this after.
Proof.
  intros (Fmin & Fmax & Ftrials & Fstep & Fiter & Ffail & Atrials & Aiter & Agoal
          & Atol & Amethod & Adebug).
  unfold to_XML.
  match goal with
  | |- context [tinyxml2.XMLElement "IncrementalOrder" ?c] => set (root := c)
  end.
  change (from_XML OPENNN_DEBUG base [tinyxml2.XMLElement "IncrementalOrder" root] target)
    with (match reads root (members OPENNN_DEBUG base) (Some (target, [])) with
          | Some (this', cout) => Returns this' cout
          | None => Undefined
          end).
  unfold members.
  do 2 (next_member; rewrite size_t_of_text_write_size_t by assumption).
  next_member. rewrite size_t_of_text_write_size_t by assumption.
  unfold set_trials_number, checked_setter. rewrite Atrials.
  next_member. unfold set_performance_calculation_method, write_performance_calculation_method.
  rewrite Amethod.
  next_member. rewrite size_t_of_text_write_size_t by assumption.
  rewrite set_step_stores by (intros D; exact (proj1 (Adebug D))).
  do 5 (next_member; rewrite flag_of_text_write_bool;
        unfold set_reserve_parameters_data, set_reserve_performance_data,
          set_reserve_generalization_performance_data,
          set_reserve_minimal_parameters, set_display).
  next_member. unfold set_generalization_performance_goal, checked_setter.
  rewrite Agoal.
  next_member. rewrite size_t_of_text_write_size_t by assumption.
  unfold set_maximum_iterations_number, checked_setter. rewrite Aiter.
  next_member. unfold set_maximum_time, checked_setter.
  destruct (accepts_maximum_time base _);
    (next_member; unfold set_tolerance, checked_setter; rewrite Atol;
     next_member; rewrite size_t_of_text_write_size_t by assumption;
     rewrite set_maximum_generalization_failures_stores
       by (intros D; exact (proj2 (Adebug D)));
     cbn [read_members fold_left];
     eexists; eexists; split; [reflexivity|];
     unfold read_back; repeat split; reflexivity).
Qed.

(** *** [load] *)

Lemma set_default_values (this : Object) :
  step (set_default this) = 1 /\
  maximum_generalization_failures (set_default this) = 3 /\
  inherited_members_kept this (set_default this).
Proof. unfold inherited_members_kept. repeat split; reflexivity. Qed.

(** C10, as amended: [load] first sets [step] to 1 and
    [maximum_generalization_failures] to 3 and leaves the members inherited
    from the base class as they were; if the file cannot be loaded it throws
    with the object in that state; otherwise it reads the document into that
    state, so that after a load that returns, a missing [Step] leaves 1, a
    missing [MaximumGeneralizationFailures] leaves 3, and a missing element
    of an inherited member leaves the value the object had before the
    call. *)
Theorem load_resets_own_members_only LoadFile file_name (this : Object) :
  step (set_default this) = 1 /\
  maximum_generalization_failures (set_default this) = 3 /\
  inherited_members_kept this (set_default this) /\
  match LoadFile file_name with
  | None =>
      exists what,
        load OPENNN_DEBUG base LoadFile file_name this
        = Throws what (set_default this) []
  | Some document =>
      load OPENNN_DEBUG base LoadFile file_name this
      = from_XML OPENNN_DEBUG base document (set_default this) /\
      forall root after cout,
        tinyxml2.FirstChildElement "IncrementalOrder" document = Some root ->
        load OPENNN_DEBUG base LoadFile file_name this = Returns after cout ->
        missing_members_kept root (set_default this) after
  end.
Proof.
  destruct (set_default_values this) as (H1 & H2 & H3).
  repeat (split; [assumption|]).
  unfold load. destruct (LoadFile file_name) as [document|]; [|eauto].
  split; [reflexivity|].
  intros root after cout R H.
  pose proof (from_XML_tolerates_missing_elements_aux document (set_default this)) as T.
  rewrite R in T. apply T in H. exact H.
Qed.

End ClassFacts.

(* ================================================================= *)
(** ** The theorems at concrete inputs *)

Ltac by_computation :=
  vm_compute; repeat split; try reflexivity; try (intros ?; discriminate).

(** The example run returns, after three iterations. *)
Lemma example_run_returns :
  exists out,
    perform_order_selection example_object example_world 10 example_network = Some out /\
    IncrementalOrderResults.order_data (returned out) = [1; 3; 5] /\
    IncrementalOrderResults.stopping_condition (returned out) = Some AlgorithmFinished /\
    IncrementalOrderResults.optimal_order (returned out) = Some 3.
Proof. eexists. split; [vm_compute; reflexivity|]. repeat split. Qed.

(** C1 at the example: the run returns and its stopping reason obeys the
    priority order. *)
Lemma stopping_reason_example :
  exists out,
    perform_order_selection example_object example_world 10 example_network = Some out /\
    exists n : nat,
      List.length (IncrementalOrderResults.order_data (returned out)) = S n /\
      (forall j, (j < n)%nat ->
         first_that_holds
           (conditions_in_priority_order example_object
              (metrics_of_pass example_object example_world j)) = None /\
         IncrementalOrderResults.stopping_condition
           (results (state_after example_object example_world (S j))) = None) /\
      exists reason,
        first_that_holds
          (conditions_in_priority_order example_object
             (metrics_of_pass example_object example_world n)) = Some reason /\
        IncrementalOrderResults.stopping_condition (returned out) = Some reason.
Proof.
  destruct (perform_order_selection example_object example_world 10 example_network)
    as [out|] eqn:E.
  - exists out. split; [reflexivity|].
    exact (stopping_reason_follows_priority_order example_object example_world 10
             example_network out E).
  - vm_compute in E. discriminate.
Defined.

(** C2 at the example: the second iteration (order 3, performance 0.5
    against the optimum 0.9) adopts its order; the third (order 5, 0.6) does
    not. *)
Lemma optimum_adoption_example :
  optimal_order (state_after example_object example_world 2) = 3 /\
  optimal_order (state_after example_object example_world 3) = 3.
Proof.
  split.
  - refine (proj1 (proj1 (optimum_adopted_iff_first_or_improving
                            example_object example_world 1 _) _)).
    + by_computation.
    + right. by_computation.
  - refine (proj1 (proj2 (optimum_adopted_iff_first_or_improving
                            example_object example_world 2 _) _)).
    + by_computation.
    + intros [H|[H _]]; [discriminate|]. vm_compute in H. discriminate.
Defined.

(** C4 at the example: the orders 1, 3, 5. *)
Lemma order_sequence_example :
  exists out,
    perform_order_selection example_object example_world 10 example_network = Some out /\
    order_sequence_as_specified example_object
      (IncrementalOrderResults.order_data (returned out)).
Proof.
  destruct (perform_order_selection example_object example_world 10 example_network)
    as [out|] eqn:E.
  - exists out. split; [reflexivity|].
    refine (proj1 (order_sequence_when_bounds_are_ordered example_object example_world
                     _ _ _ 10 example_network out E)); by_computation.
  - vm_compute in E. discriminate.
Defined.

(** C4 as stated fails when the minimum order exceeds the maximum order:
    the orders evaluated are 5 and then 3. *)
Lemma order_sequence_crossed_bounds :
  exists out,
    perform_order_selection crossed_object example_world 10 example_network = Some out /\
    IncrementalOrderResults.order_data (returned out) = [5; 3] /\
    ~ order_sequence_as_specified crossed_object
        (IncrementalOrderResults.order_data (returned out)).
Proof.
  eexists. split; [vm_compute; reflexivity|]. split; [reflexivity|].
  cbn [returned IncrementalOrderResults.order_data].
  intros (_ & H & _). inversion H as [|? ? H5 _]; subst.
  vm_compute in H5. apply H5. reflexivity.
Qed.

(** [order + step] is a [size_t] sum: at the top of the range the next
    order wraps around and the sequence decreases. *)
Lemma order_sequence_wraps_around :
  exists out,
    perform_order_selection topmost_object example_world 10 example_network = Some out /\
    IncrementalOrderResults.order_data (returned out) = [18446744073709551614; 1; 4].
Proof. eexists. split; vm_compute; reflexivity. Qed.

(** C6 at the example: order 3 and its parameters are installed. *)
Lemma finalization_example :
  exists out,
    perform_order_selection example_object example_world 10 example_network = Some out /\
    exists n i : nat,
      network out
      = MultilayerPerceptron.mk 4 (order (state_after example_object example_world i)) 2
          (get_parameters_order example_world (S i)
             (order (state_after example_object example_world i))) /\
      IncrementalOrderResults.iterations_number (returned out)
      = Some (SizeT.wrap (Z.of_nat (S n))).
Proof.
  destruct (perform_order_selection example_object example_world 10 example_network)
    as [out|] eqn:E.
  - exists out. split; [reflexivity|].
    destruct (finalization_installs_and_reports_optimum example_object example_world 10
                example_network out E)
      as (n & i & _ & _ & _ & Hnet & _ & _ & _ & Hit & _).
    exists n, i. split; [exact Hnet|exact Hit].
  - vm_compute in E. discriminate.
Defined.

(** C5 at the example, read back into an object that differs in every
    member. *)
Lemma read_back_example :
  exists after cout,
    from_XML true example_base (to_XML example_base example_object)
      (assign_display false fine_grained_object) = Returns after cout /\
    read_back example_object after.
Proof.
  apply (to_XML_from_XML_reads_back true example_base example_object).
  unfold readable_back, fits_int. by_computation.
Defined.

(** C5 as stated fails: the tolerance 0.1234567 comes back as 0.123457,
    the iteration cap 3000000000 does not come back, and neither does the
    time budget 0.5, which becomes 0. *)
Lemma read_back_loses_values :
  exists after cout,
    from_XML true example_base (to_XML example_base fine_grained_object)
      fine_grained_object = Returns after cout /\
    Text.write_double (tolerance fine_grained_object) = "0.123457" /\
    PrimFloat.eqb (tolerance after) (tolerance fine_grained_object) = false /\
    maximum_iterations_number after <> maximum_iterations_number fine_grained_object /\
    PrimFloat.eqb (maximum_time after) (maximum_time fine_grained_object) = false /\
    after <> fine_grained_object.
Proof.
  eexists. eexists. split; [vm_compute; reflexivity|].
  split; [vm_compute; reflexivity|].
  split; [vm_compute; reflexivity|].
  split; [vm_compute; discriminate|].
  split; [vm_compute; reflexivity|].
  intros H. apply (f_equal maximum_iterations_number) in H. vm_compute in H.
  discriminate.
Qed.

(** C8 at the example, for a step of 2 and a threshold of 3. *)
Lemma setters_example :
  set_step true 0 example_object <> Done (assign_step 0 example_object) /\
  set_step true 2 example_object = Done (assign_step 2 example_object) /\
  set_maximum_generalization_failures true 3 example_object
  = Done (assign_maximum_generalization_failures 3 example_object).
Proof.
  assert (R0 : SizeT.in_range 0) by by_computation.
  assert (R2 : SizeT.in_range 2) by by_computation.
  assert (R3 : SizeT.in_range 3) by by_computation.
  destruct (setters_validate_in_debug_builds true 0 3 example_object R0 R3)
    as (Hdebug0 & _).
  destruct (setters_validate_in_debug_builds true 2 3 example_object R2 R3)
    as (Hdebug2 & _).
  destruct (Hdebug0 eq_refl) as (Hzero & _).
  destruct (Hdebug2 eq_refl) as (_ & Hstep & _ & Hfail).
  split; [|split].
  - destruct (Hzero (or_introl eq_refl)) as [what ->]. discriminate.
  - apply Hstep. by_computation.
  - apply Hfail. by_computation.
Defined.

(** C8 as stated fails in a build without [__OPENNN_DEBUG__]: a zero step
    and a zero threshold are stored. *)
Lemma setters_store_zero_in_release_builds :
  set_step false 0 example_object = Done (assign_step 0 example_object) /\
  step (assign_step 0 example_object) = 0 /\
  set_maximum_generalization_failures false 0 example_object
  = Done (assign_maximum_generalization_failures 0 example_object) /\
  maximum_generalization_failures
    (assign_maximum_generalization_failures 0 example_object) = 0.
Proof. repeat split. Qed.

(** C10 as stated fails: two loads of a file that cannot be loaded leave
    two different minimum orders behind, so [load] has not reset that member
    to a default. *)
Lemma load_keeps_inherited_members :
  exists what1 what2 after1 after2,
    load false example_base no_file "missing.xml" example_object
    = Throws what1 after1 [] /\
    load false example_base no_file "missing.xml" crossed_object
    = Throws what2 after2 [] /\
    minimum_order after1 = 1 /\
    minimum_order after2 = 5.
Proof. do 4 eexists. repeat split. Qed.

(* ================================================================= *)
(** ** More on the search loop *)

Section SearchBounds.

Context {PerformanceCalculationMethod : Type}.
Variable this : @IncrementalOrder PerformanceCalculationMethod.
Variable world : World.

#[local] Abbreviation run_state := (state_after this world).

(** Once set, [end] stays set. *)
Lemma end_is_kept n : end_ (run_state n) = true -> end_ (run_state (S n)) = true.
Proof.
  intros E. destruct (pass_stops this world n) as [He _]. rewrite He, E.
  destruct (first_that_holds _); reflexivity.
Qed.

Lemma end_is_kept_later n m :
  (n <= m)%nat -> end_ (run_state n) = true -> end_ (run_state m) = true.
Proof. induction 1 as [|m _ IH]; [auto|]. intros E. apply end_is_kept. auto. Qed.

(** A run that returns made as many passes as it takes [end] to be set:
    no more than any [m] with [end] set after [m] passes. *)
Lemma passes_at_most fuel net out m :
  perform_order_selection this world fuel net = Some out ->
  end_ (run_state m) = true ->
  (List.length (IncrementalOrderResults.order_data (returned out)) <= m)%nat.
Proof.
  intros H E. destruct (search_passes _ _ _ _ _ H) as (n & -> & _ & Hbefore).
  cbn [finish returned IncrementalOrderResults.order_data].
  rewrite order_data_length.
  destruct (Nat.le_gt_cases (S n) m) as [L|L]; [exact L|].
  rewrite (Hbefore m) in E by lia. discriminate.
Qed.

(** With enough fuel for [m] passes a run returns when [end] is set after
    [m] passes. *)
Lemma returns_when_end_is_set net m :
  end_ (run_state m) = true ->
  exists out, perform_order_selection this world m net = Some out.
Proof.
  intros E. unfold perform_order_selection.
  destruct (while_not_end_returns this world m (time world O) m
              (initial_locals this world) (Nat.le_refl _) E) as [l' ->].
  eauto.
Qed.

(** *** The iteration cap *)

Lemma end_at_iteration_cap :
  0 <= maximum_iterations_number this < SizeT.modulus - 1 ->
  end_ (run_state (S (Z.to_nat (maximum_iterations_number this)))) = true.
Proof.
  intros B. set (N := Z.to_nat (maximum_iterations_number this)).
  destruct (pass_stops this world N) as [He _]. rewrite He. clear He.
  assert (L : (maximum_iterations_number this <? iterations (run_state (S N))) = true).
  { rewrite iterations_state_after.
    rewrite wrap_small by (unfold SizeT.in_range, N; lia).
    apply Z.ltb_lt. unfold N. lia. }
  unfold first_that_holds, conditions_in_priority_order, metrics_of_pass.
  cbn [find fst metric_elapsed_time metric_generalization_performance
       metric_iterations metric_generalization_failures metric_order].
  rewrite L.
  repeat match goal with
         | |- context [PrimFloat.ltb ?a ?b] => destruct (PrimFloat.ltb a b)
         end; reflexivity.
Qed.

(** X1: with an iteration cap [maximum_iterations_number] below the largest
    [size_t], fuel for [maximum_iterations_number + 1] iterations makes the
    search return, and every run that returns reports an iteration count
    between 1 and [maximum_iterations_number + 1], which is also the number
    of orders it evaluated: the cap is checked after the counter is
    incremented and with [>], so one iteration more than the cap can be
    made. *)
Theorem iteration_cap_bounds_the_run net :
  0 <= maximum_iterations_number this < SizeT.modulus - 1 ->
  (exists out,
     perform_order_selection this world
       (S (Z.to_nat (maximum_iterations_number this))) net = Some out) /\
  forall fuel out,
    perform_order_selection this world fuel net = Some out ->
    exists k,
      IncrementalOrderResults.iterations_number (returned out) = Some k /\
      1 <= k <= maximum_iterations_number this + 1 /\
      List.length (IncrementalOrderResults.order_data (returned out)) = Z.to_nat k.
Proof.
  intros B. pose proof (end_at_iteration_cap B) as E.
  split; [now apply returns_when_end_is_set|].
  intros fuel out H. pose proof (passes_at_most _ _ _ _ H E) as L.
  destruct (search_passes _ _ _ _ _ H) as (n & -> & _ & _).
  cbn [finish returned IncrementalOrderResults.order_data
       IncrementalOrderResults.iterations_number] in *.
  rewrite order_data_length in *. rewrite iterations_state_after.
  rewrite wrap_small by (unfold SizeT.in_range; lia).
  exists (Z.of_nat (S n)). repeat split; try lia.
Qed.

(** *** Exhausting the range of orders *)

Section Range.

Hypothesis bounds_ordered : 0 <= minimum_order this <= maximum_order this.
Hypothesis step_positive : 0 < step this.
Hypothesis no_overflow : maximum_order this + step this < SizeT.modulus.

(** While the loop goes on, the order of pass [j] is
    [min(maximum_order, minimum_order + j * step)]. *)
Lemma order_closed_form j :
  end_ (run_state j) = true \/
  order (run_state j)
  = Z.min (maximum_order this) (minimum_order this + Z.of_nat j * step this).
Proof.
  induction j as [|j IH]; [right; cbn; lia|].
  destruct (end_ (run_state (S j))) eqn:E; [now left|right].
  destruct IH as [IH|IH]; [apply end_is_kept in IH; congruence|].
  rewrite pass_order, E, IH. unfold SizeT.add.
  rewrite wrap_small by (unfold SizeT.in_range; lia).
  rewrite Nat2Z.inj_succ, Z.mul_succ_l. lia.
Qed.

Lemma end_at_range_end :
  end_ (run_state
          (S (Z.to_nat
                ((maximum_order this - minimum_order this + step this - 1) / step this))))
  = true.
Proof.
  set (K := (maximum_order this - minimum_order this + step this - 1) / step this).
  assert (HK : 0 <= K) by (apply Z.div_pos; lia).
  assert (Hreach : maximum_order this <= minimum_order this + K * step this).
  { pose proof (Z.mul_div_le (maximum_order this - minimum_order this + step this - 1)
                  (step this) step_positive).
    pose proof (Z.mod_pos_bound
                  (maximum_order this - minimum_order this + step this - 1)
                  (step this) step_positive).
    pose proof (Z.div_mod (maximum_order this - minimum_order this + step this - 1)
                  (step this) ltac:(lia)).
    fold K in H, H1. nia. }
  destruct (order_closed_form (Z.to_nat K)) as [E|E]; [now apply end_is_kept|].
  rewrite Z2Nat.id in E by exact HK.
  destruct (pass_stops this world (Z.to_nat K)) as [He _]. rewrite He. clear He.
  assert (L : (order (run_state (Z.to_nat K)) =? maximum_order this) = true)
    by (apply Z.eqb_eq; lia).
  unfold first_that_holds, conditions_in_priority_order, metrics_of_pass.
  cbn [find fst metric_elapsed_time metric_generalization_performance
       metric_iterations metric_generalization_failures metric_order].
  rewrite L.
  repeat match goal with
         | |- context [PrimFloat.ltb ?a ?b] => destruct (PrimFloat.ltb a b)
         | |- context [Z.ltb ?a ?b] => destruct (Z.ltb a b)
         | |- context [Z.leb ?a ?b] => destruct (Z.leb a b)
         end; reflexivity.
Qed.

(** X2: with ordered bounds, a positive step and no [size_t] overflow, the
    search returns after at most [ceil((maximum_order - minimum_order) /
    step) + 1] iterations whatever the other stopping criteria are, and the
    [j]-th order it evaluates is [min(maximum_order, minimum_order + j *
    step)]. *)
Theorem range_of_orders_bounds_the_run net :
  let K := (maximum_order this - minimum_order this + step this - 1) / step this in
  (exists out, perform_order_selection this world (S (Z.to_nat K)) net = Some out) /\
  forall fuel out,
    perform_order_selection this world fuel net = Some out ->
    let orders := IncrementalOrderResults.order_data (returned out) in
    (List.length orders <= S (Z.to_nat K))%nat /\
    forall j, (j < List.length orders)%nat ->
      nth j orders 0
      = Z.min (maximum_order this) (minimum_order this + Z.of_nat j * step this).
Proof.
  intros K. pose proof end_at_range_end as E. fold K in E.
  split; [now apply returns_when_end_is_set|].
  intros fuel out H orders. split; [exact (passes_at_most _ _ _ _ H E)|].
  destruct (search_passes _ _ _ _ _ H) as (n & -> & _ & Hbefore).
  unfold orders. cbn [finish returned IncrementalOrderResults.order_data].
  rewrite order_data_state_after, length_map, length_seq. intros j Hj.
  rewrite (nth_indep _ 0 (order (run_state 0))) by now rewrite length_map, length_seq.
  rewrite (map_nth (fun j => order (run_state j))), seq_nth by lia.
  destruct (order_closed_form j) as [F|F]; [|exact F].
  rewrite (Hbefore j) in F by lia. discriminate.
Qed.

End Range.

End SearchBounds.

(* ================================================================= *)
(** ** The history a search records *)

Section SearchHistory.

Context {PerformanceCalculationMethod : Type}.
Variable this : @IncrementalOrder PerformanceCalculationMethod.
Variable world : World.

#[local] Abbreviation history_state := (state_after this world).

Lemma performance_data_state_after n :
  IncrementalOrderResults.performance_data (results (history_state n))
  = if reserve_performance_data this
    then map (fun j => fst (calculate_performances world j (order (history_state j))))
             (seq 0 n)
    else [].
Proof.
  induction n as [|n IH]; [now destruct (reserve_performance_data this)|].
  rewrite state_after_S. unfold loop_body.
  cbn [results IncrementalOrderResults.performance_data].
  rewrite IH, evaluations_state_after.
  destruct (reserve_performance_data this); [|reflexivity].
  now rewrite seq_S, map_app.
Qed.

Lemma generalization_performance_data_state_after n :
  IncrementalOrderResults.generalization_performance_data (results (history_state n))
  = if reserve_generalization_performance_data this
    then map (generalization_performance_at this world) (seq 0 n)
    else [].
Proof.
  induction n as [|n IH];
    [now destruct (reserve_generalization_performance_data this)|].
  rewrite state_after_S. unfold loop_body.
  cbn [results IncrementalOrderResults.generalization_performance_data].
  rewrite IH, evaluations_state_after.
  destruct (reserve_generalization_performance_data this); [|reflexivity].
  now rewrite seq_S, map_app.
Qed.

Lemma parameters_data_state_after n :
  IncrementalOrderResults.parameters_data (results (history_state n))
  = if reserve_parameters_data this
    then map (fun j => get_parameters_order world (S j) (order (history_state j)))
             (seq 0 n)
    else [].
Proof.
  induction n as [|n IH]; [now destruct (reserve_parameters_data this)|].
  rewrite state_after_S. unfold loop_body.
  cbn [results IncrementalOrderResults.parameters_data].
  rewrite IH, evaluations_state_after.
  destruct (reserve_parameters_data this); [|reflexivity].
  now rewrite seq_S, map_app.
Qed.

Lemma minimal_parameters_state_after n :
  IncrementalOrderResults.minimal_parameters (results (history_state n)) = [].
Proof. induction n as [|n IH]; [reflexivity|exact IH]. Qed.

(** The vectors of the returned record in terms of the states that this
    object's run goes through. *)
Lemma history_of_the_run fuel net out :
  perform_order_selection this world fuel net = Some out ->
  exists n : nat,
    let passes := seq 0 n in
    let r := returned out in
    IncrementalOrderResults.order_data r
    = map (fun j => order (history_state j)) passes /\
    IncrementalOrderResults.performance_data r
    = (if reserve_performance_data this
       then map (fun j => fst (calculate_performances world j (order (history_state j))))
                passes
       else []) /\
    IncrementalOrderResults.generalization_performance_data r
    = (if reserve_generalization_performance_data this
       then map (generalization_performance_at this world) passes
       else []) /\
    IncrementalOrderResults.parameters_data r
    = (if reserve_parameters_data this
       then map (fun j => get_parameters_order world (S j) (order (history_state j)))
                passes
       else []) /\
    IncrementalOrderResults.minimal_parameters r
    = (if reserve_minimal_parameters this
       then MultilayerPerceptron.parameters (network out)
       else []) /\
    IncrementalOrderResults.iterations_number r = Some (SizeT.wrap (Z.of_nat n)).
Proof.
  intros H. destruct (search_passes _ _ _ _ _ H) as (n & -> & _ & _).
  exists (S n). cbv zeta. unfold finish.
  cbn [returned network MultilayerPerceptron.set_parameters
       MultilayerPerceptron.parameters
       IncrementalOrderResults.order_data IncrementalOrderResults.performance_data
       IncrementalOrderResults.generalization_performance_data
       IncrementalOrderResults.parameters_data
       IncrementalOrderResults.minimal_parameters
       IncrementalOrderResults.iterations_number].
  rewrite order_data_state_after, performance_data_state_after,
    generalization_performance_data_state_after, parameters_data_state_after,
    minimal_parameters_state_after, iterations_state_after.
  repeat split.
Qed.

(** X4: the optimal order a run reports is one of the orders it evaluated,
    and it is the size the network is given; with ordered bounds and no
    [size_t] overflow it lies between [minimum_order] and
    [maximum_order]. *)
Theorem optimal_order_was_evaluated fuel net out :
  perform_order_selection this world fuel net = Some out ->
  exists best,
    IncrementalOrderResults.optimal_order (returned out) = Some best /\
    MultilayerPerceptron.hidden_perceptrons_number (network out) = best /\
    In best (IncrementalOrderResults.order_data (returned out)) /\
    (0 <= minimum_order this <= maximum_order this ->
     0 <= step this ->
     maximum_order this + step this < SizeT.modulus ->
     minimum_order this <= best <= maximum_order this).
Proof.
  intros H. destruct (search_passes _ _ _ _ _ H) as (n & -> & _ & _).
  destruct (optimum_comes_from_a_pass this world n) as (i & Hi & _ & _ & E & _ & _).
  exists (order (history_state i)). unfold finish.
  cbn [returned network MultilayerPerceptron.set_parameters MultilayerPerceptron.set
       MultilayerPerceptron.hidden_perceptrons_number
       IncrementalOrderResults.order_data IncrementalOrderResults.optimal_order].
  rewrite E, order_data_state_after. repeat split.
  - apply in_map_iff. exists i. split; [reflexivity|]. apply in_seq. lia.
  - apply order_within_bounds; assumption.
  - apply order_within_bounds; assumption.
Qed.

End SearchHistory.

(* ================================================================= *)
(** ** The reserve flags *)

Section ReserveFlags.

Context {PerformanceCalculationMethod : Type}.
Variable this : @IncrementalOrder PerformanceCalculationMethod.
Variable world : World.
Variables parameters_data performance_data generalization_performance_data
          minimal_parameters : bool.

(** The object that reserves everything, and the one with the given flags. *)
#[local] Abbreviation reserving_all := (with_reserve_flags true true true true this).
#[local] Abbreviation flagged :=
  (with_reserve_flags parameters_data performance_data
     generalization_performance_data minimal_parameters this).
#[local] Abbreviation selected :=
  (selected_locals parameters_data performance_data generalization_performance_data).

Lemma with_own_reserve_flags :
  with_reserve_flags (reserve_parameters_data this) (reserve_performance_data this)
    (reserve_generalization_performance_data this) (reserve_minimal_parameters this)
    this
  = this.
Proof. destruct this; reflexivity. Qed.

Lemma initial_locals_selected :
  initial_locals flagged world = selected (initial_locals reserving_all world).
Proof.
  destruct parameters_data, performance_data, generalization_performance_data;
    reflexivity.
Qed.

(** A pass of the flagged object does to the selected locals what a pass
    of the object that reserves everything does to the locals. *)
Lemma loop_body_selected beginning_time l :
  loop_body flagged world beginning_time (selected l)
  = selected (loop_body reserving_all world beginning_time l).
Proof.
  destruct parameters_data, performance_data, generalization_performance_data;
    reflexivity.
Qed.

Lemma while_not_end_selected beginning_time : forall fuel l,
  while_not_end flagged world fuel beginning_time (selected l)
  = option_map selected (while_not_end reserving_all world fuel beginning_time l).
Proof.
  induction fuel as [|fuel IH]; intros l; cbn [while_not_end];
    change (end_ (selected l)) with (end_ l);
    destruct (end_ l); try reflexivity.
  rewrite loop_body_selected. apply IH.
Qed.

Lemma finish_selected net l :
  finish flagged world net (selected l)
  = selected_history parameters_data performance_data
      generalization_performance_data minimal_parameters
      (finish reserving_all world net l).
Proof. destruct minimal_parameters; reflexivity. Qed.

Lemma perform_order_selection_selected fuel net :
  perform_order_selection flagged world fuel net
  = option_map
      (selected_history parameters_data performance_data
         generalization_performance_data minimal_parameters)
      (perform_order_selection reserving_all world fuel net).
Proof.
  unfold perform_order_selection.
  rewrite initial_locals_selected, while_not_end_selected.
  destruct (while_not_end reserving_all world fuel _ _) as [l|]; [|reflexivity].
  cbn [option_map]. now rewrite finish_selected.
Qed.

End ReserveFlags.

(** X3: the reserve flags only select which vectors the returned record
    holds. The run of an object with any four reserve flags ends exactly
    when the run of the same object with all four flags set ends, and its
    outcome is that run's outcome with the vectors of the flags that are off
    left empty: the orders, the stopping condition, the optimum, the final
    performances, the iterations, the elapsed time, the network and the
    printed lines are the same, so no flag changes another member. With all
    four flags set, a run of [n] iterations returns the [n] orders, training
    performances, generalization performances and parameter vectors of its
    iterations, and the installed parameter vector as
    [minimal_parameters]. *)
Theorem reserve_flags_select_the_history {PerformanceCalculationMethod : Type}
    (this : @IncrementalOrder PerformanceCalculationMethod) (world : World)
    (parameters_data performance_data generalization_performance_data
     minimal_parameters : bool)
    (fuel : nat) (net : MultilayerPerceptron.t) :
  perform_order_selection
    (with_reserve_flags parameters_data performance_data
       generalization_performance_data minimal_parameters this)
    world fuel net
  = option_map
      (selected_history parameters_data performance_data
         generalization_performance_data minimal_parameters)
      (perform_order_selection (with_reserve_flags true true true true this)
         world fuel net) /\
  perform_order_selection this world fuel net
  = option_map
      (selected_history (reserve_parameters_data this) (reserve_performance_data this)
         (reserve_generalization_performance_data this)
         (reserve_minimal_parameters this))
      (perform_order_selection (with_reserve_flags true true true true this)
         world fuel net) /\
  forall out,
    perform_order_selection (with_reserve_flags true true true true this) world fuel net
    = Some out ->
    exists n : nat,
      let pass := state_after (with_reserve_flags true true true true this) world in
      let r := returned out in
      IncrementalOrderResults.order_data r
      = map (fun j => order (pass j)) (seq 0 n) /\
      IncrementalOrderResults.performance_data r
      = map (fun j => fst (calculate_performances world j (order (pass j)))) (seq 0 n) /\
      IncrementalOrderResults.generalization_performance_data r
      = map (fun j => snd (calculate_performances world j (order (pass j)))) (seq 0 n) /\
      IncrementalOrderResults.parameters_data r
      = map (fun j => get_parameters_order world (S j) (order (pass j))) (seq 0 n) /\
      IncrementalOrderResults.minimal_parameters r
      = MultilayerPerceptron.parameters (network out) /\
      IncrementalOrderResults.iterations_number r = Some (SizeT.wrap (Z.of_nat n)).
Proof.
  split; [apply perform_order_selection_selected|]. split.
  - rewrite <- perform_order_selection_selected. now rewrite with_own_reserve_flags.
  - intros out H.
    destruct (history_of_the_run _ world fuel net out H)
      as (n & Ho & Hp & Hg & Hq & Hm & Hi).
    exists n. cbv zeta in *.
    repeat split; assumption.
Qed.

(* ================================================================= *)
(** ** More on reading a document *)

Section ReadingFacts.

Variable OPENNN_DEBUG : bool.
Context {PerformanceCalculationMethod : Type}.
Variable base : @OrderSelectionAlgorithm PerformanceCalculationMethod.

#[local] Abbreviation Instance_ := (@IncrementalOrder PerformanceCalculationMethod).
#[local] Abbreviation Block :=
  (string * (string -> Instance_ -> Attempt Instance_))%type.
#[local] Abbreviation blocks := (@read_members PerformanceCalculationMethod).

(** A block keeps the member [f] when it cannot run or does not touch it. *)
#[local] Abbreviation keeps f root :=
  (fun m : Block =>
     tinyxml2.FirstChildElement (fst m) root = None \/
     forall text t, f (object_after (snd m text t)) = f t).

Lemma read_members_app root (pre post : list Block) state :
  blocks root (pre ++ post) state = blocks root post (blocks root pre state).
Proof. apply fold_left_app. Qed.

(** The state in which the block after [pre] starts. *)
Lemma read_members_at root (pre : list Block) m post this cout after cout' :
  blocks root (pre ++ m :: post) (Some (this, cout)) = Some (after, cout') ->
  exists before lines,
    blocks root pre (Some (this, cout)) = Some (before, lines) /\
    blocks root post (read_member root m (Some (before, lines))) = Some (after, cout').
Proof.
  rewrite read_members_app, read_members_cons. intros H.
  destruct (blocks root pre (Some (this, cout))) as [[before lines]|]; [eauto|].
  cbn [read_member] in H. rewrite read_members_undefined in H. discriminate.
Qed.

(** Lines are only ever added to what was printed. *)
Lemma read_members_print_more root : forall (ms : list Block) this cout after cout',
  blocks root ms (Some (this, cout)) = Some (after, cout') ->
  exists more, cout' = (cout ++ more)%list.
Proof.
  induction ms as [|m ms IH]; intros this cout after cout' H.
  - cbn in H. injection H as _ <-. exists []. now rewrite app_nil_r.
  - rewrite read_members_cons in H. unfold read_member in H.
    destruct (tinyxml2.FirstChildElement (fst m) root) as [element|]; [|eauto].
    destruct (tinyxml2.GetText element) as [text|];
      [|rewrite read_members_undefined in H; discriminate].
    destruct (snd m text this) as [this'|what this']; [eauto|].
    destruct (IH _ _ _ _ H) as [more ->]. unfold push_back.
    exists (what :: more). now rewrite <- app_assoc.
Qed.

Ltac setters_keep :=
  unfold set_step, set_maximum_generalization_failures, set_trials_number,
    set_generalization_performance_goal, set_maximum_iterations_number,
    set_maximum_time, set_tolerance, set_performance_calculation_method,
    set_reserve_parameters_data, set_reserve_performance_data,
    set_reserve_generalization_performance_data, set_reserve_minimal_parameters,
    set_display, checked_setter;
  repeat match goal with
         | |- context [if ?c then _ else _] => destruct c
         | |- context [match read_method ?b ?t with _ => _ end] => destruct (read_method b t)
         end;
  reflexivity.

Ltac untouched :=
  repeat (apply Forall_cons; [right; intros ? ?; cbn [snd]; setters_keep|]);
  apply Forall_nil.

(** The value a block gives a member when its element has a text and its
    setter stores [v] whatever the object is. *)
Lemma read_members_sets {A : Type} (f : Instance_ -> A) (v : A) root
    (pre : list Block) m post this cout after cout' text :
  blocks root (pre ++ m :: post) (Some (this, cout)) = Some (after, cout') ->
  text_of root (fst m) = Some text ->
  (forall t, f (object_after (snd m text t)) = v) ->
  Forall (keeps f root) post ->
  f after = v.
Proof.
  intros H T V K. destruct (read_members_at _ _ _ _ _ _ _ _ H) as (b & l & _ & H').
  unfold read_member, text_of in *.
  destruct (tinyxml2.FirstChildElement (fst m) root) as [element|]; [|discriminate].
  rewrite T in H'. specialize (V b). revert H' V.
  destruct (snd m text b) as [t'|w t']; cbn [object_after]; intros H' <-;
    eapply read_members_keep; eauto.
Qed.

Ltac member_at k H :=
  rewrite <- (firstn_skipn k (members OPENNN_DEBUG base)) in H;
  unfold members in H; cbn [firstn skipn] in H.

(** What a returning [from_XML] gives the members that are assigned
    without a check. *)
Lemma unchecked_members_read root (this after : Instance_) cout cout' :
  blocks root (members OPENNN_DEBUG base) (Some (this, cout)) = Some (after, cout') ->
  (forall t, text_of root "MinimumOrder" = Some t ->
             minimum_order after = size_t_of_text t) /\
  (forall t, text_of root "MaximumOrder" = Some t ->
             maximum_order after = size_t_of_text t) /\
  (forall t, text_of root "ReserveParametersData" = Some t ->
             reserve_parameters_data after = flag_of_text t) /\
  (forall t, text_of root "ReservePerformanceData" = Some t ->
             reserve_performance_data after = flag_of_text t) /\
  (forall t, text_of root "ReserveGeneralizationPerformanceData" = Some t ->
             reserve_generalization_performance_data after = flag_of_text t) /\
  (forall t, text_of root "ReserveMinimalParameters" = Some t ->
             reserve_minimal_parameters after = flag_of_text t) /\
  (forall t, text_of root "Display" = Some t -> display after = flag_of_text t).
Proof.
  intros H. repeat split; intros t T.
  - member_at 0%nat H.
    eapply (read_members_sets minimum_order); [exact H|exact T|reflexivity|untouched].
  - member_at 1%nat H.
    eapply (read_members_sets maximum_order); [exact H|exact T|reflexivity|untouched].
  - member_at 5%nat H.
    eapply (read_members_sets reserve_parameters_data); [exact H|exact T|reflexivity|untouched].
  - member_at 6%nat H.
    eapply (read_members_sets reserve_performance_data); [exact H|exact T|reflexivity|untouched].
  - member_at 7%nat H.
    eapply (read_members_sets reserve_generalization_performance_data); [exact H|exact T|reflexivity|untouched].
  - member_at 8%nat H.
    eapply (read_members_sets reserve_minimal_parameters); [exact H|exact T|reflexivity|untouched].
  - member_at 9%nat H.
    eapply (read_members_sets display); [exact H|exact T|reflexivity|untouched].
Qed.

Lemma from_XML_returns_reads document root (this after : Instance_) cout :
  tinyxml2.FirstChildElement "IncrementalOrder" document = Some root ->
  from_XML OPENNN_DEBUG base document this = Returns after cout ->
  blocks root (members OPENNN_DEBUG base) (Some (this, [])) = Some (after, cout).
Proof.
  unfold from_XML. intros ->.
  destruct (read_members root _ _) as [[a c]|]; [|discriminate].
  intros H. now injection H as -> ->.
Qed.

(** X5: [from_XML] assigns the two bounds and the five flags without any
    check. Whatever a [MinimumOrder] or [MaximumOrder] element says is
    stored as [atoi] reads it, also when that leaves the minimum above the
    maximum or when the text is no number (it then reads as 0); a flag is
    false for the text [0] alone and true for every other text. *)
Theorem from_XML_stores_bounds_and_flags_unchecked
    document root (this after : Instance_) cout :
  tinyxml2.FirstChildElement "IncrementalOrder" document = Some root ->
  from_XML OPENNN_DEBUG base document this = Returns after cout ->
  (forall t, text_of root "MinimumOrder" = Some t ->
             minimum_order after = SizeT.wrap (Text.atoi t)) /\
  (forall t, text_of root "MaximumOrder" = Some t ->
             maximum_order after = SizeT.wrap (Text.atoi t)) /\
  (forall t, text_of root "ReserveParametersData" = Some t ->
             reserve_parameters_data after = negb (String.eqb t "0")) /\
  (forall t, text_of root "ReservePerformanceData" = Some t ->
             reserve_performance_data after = negb (String.eqb t "0")) /\
  (forall t, text_of root "ReserveGeneralizationPerformanceData" = Some t ->
             reserve_generalization_performance_data after = negb (String.eqb t "0")) /\
  (forall t, text_of root "ReserveMinimalParameters" = Some t ->
             reserve_minimal_parameters after = negb (String.eqb t "0")) /\
  (forall t, text_of root "Display" = Some t ->
             display after = negb (String.eqb t "0")).
Proof.
  intros R H.
  exact (unchecked_members_read root this after [] cout
           (from_XML_returns_reads _ _ _ _ _ R H)).
Qed.

(** What one block whose element has a text does to the member [f], when
    its setter either stores [v] or throws [w]. *)
Lemma read_member_decides {A : Type} (f : Instance_ -> A) root (m : Block) post
    before lines after cout' text (v : A) (ok : bool) (w : string) :
  blocks root post (read_member root m (Some (before, lines))) = Some (after, cout') ->
  text_of root (fst m) = Some text ->
  (ok = true -> exists t', snd m text before = Done t' /\ f t' = v) ->
  (ok = false -> snd m text before = logic_error w before) ->
  Forall (keeps f root) post ->
  f after = (if ok then v else f before) /\ (ok = false -> In w cout').
Proof.
  intros H T Hok Hko K. unfold read_member, text_of in *.
  destruct (tinyxml2.FirstChildElement (fst m) root) as [element|]; [|discriminate].
  rewrite T in H. destruct ok.
  - destruct (Hok eq_refl) as (t' & E & <-). rewrite E in H.
    split; [|discriminate]. eapply read_members_keep; eauto.
  - rewrite (Hko eq_refl) in H. split.
    + eapply read_members_keep; eauto.
    + intros _. destruct (read_members_print_more _ _ _ _ _ _ H) as [more ->].
      unfold push_back. apply in_or_app. left. apply in_or_app. right. now left.
Qed.

Ltac decided_member k f H T :=
  let b := fresh "before" in
  let l := fresh "lines" in
  let Hpre := fresh "Hpre" in
  let Hpost := fresh "Hpost" in
  let Eb := fresh "Eb" in
  member_at k H;
  destruct (read_members_at _ _ _ _ _ _ _ _ H) as (b & l & Hpre & Hpost);
  assert (Eb : f b = f _) by (eapply read_members_keep; [|exact Hpre]; untouched);
  rewrite <- Eb;
  eapply (read_member_decides f); [exact Hpost|exact T| | |untouched];
  cbn [snd]; unfold set_trials_number, set_generalization_performance_goal,
    set_maximum_iterations_number, set_maximum_time, set_tolerance, checked_setter,
    size_t_of_text;
  intros ->; eauto.

(** X6: a value that the setter of the trials number, the generalization
    performance goal, the maximum iterations number or the tolerance rejects
    leaves that member as it was, is reported on the standard output, and
    does not stop [from_XML]; a value that the setter accepts is stored. *)
Theorem from_XML_reports_rejected_values document root (this after : Instance_) cout :
  tinyxml2.FirstChildElement "IncrementalOrder" document = Some root ->
  from_XML OPENNN_DEBUG base document this = Returns after cout ->
  (forall t, text_of root "TrialsNumber" = Some t ->
     let v := SizeT.wrap (Text.atoi t) in
     trials_number after
     = (if accepts_trials_number base v then v else trials_number this) /\
     (accepts_trials_number base v = false ->
      In (what base "set_trials_number") cout)) /\
  (forall t, text_of root "GeneralizationPerformanceGoal" = Some t ->
     let v := Text.atof t in
     generalization_performance_goal after
     = (if accepts_generalization_performance_goal base v then v
        else generalization_performance_goal this) /\
     (accepts_generalization_performance_goal base v = false ->
      In (what base "set_generalization_performance_goal") cout)) /\
  (forall t, text_of root "MaximumIterationsNumber" = Some t ->
     let v := SizeT.wrap (Text.atoi t) in
     maximum_iterations_number after
     = (if accepts_maximum_iterations_number base v then v
        else maximum_iterations_number this) /\
     (accepts_maximum_iterations_number base v = false ->
      In (what base "set_maximum_iterations_number") cout)) /\
  (forall t, text_of root "Tolerance" = Some t ->
     let v := Text.atof t in
     tolerance after = (if accepts_tolerance base v then v else tolerance this) /\
     (accepts_tolerance base v = false -> In (what base "set_tolerance") cout)).
Proof.
  intros R H0. pose proof (from_XML_returns_reads _ _ _ _ _ R H0) as H. clear R H0.
  split; [|split; [|split]]; intros t T v; subst v.
  - decided_member 2%nat (@trials_number PerformanceCalculationMethod) H T.
  - decided_member 10%nat (@generalization_performance_goal PerformanceCalculationMethod) H T.
  - decided_member 11%nat (@maximum_iterations_number PerformanceCalculationMethod) H T.
  - decided_member 13%nat (@tolerance PerformanceCalculationMethod) H T.
Qed.

(** X7: the [MaximumTime] text is converted with [atoi]: the time budget
    [from_XML] hands to its setter is always a whole number of seconds
    within the range of [int], so that a fraction is dropped and a text in
    exponent notation is cut at its first non-digit; the member takes that
    value when the setter accepts it and is left as it was, with a line on
    the standard output, when it does not. *)
Theorem from_XML_reads_maximum_time_as_int document root (this after : Instance_) cout t :
  tinyxml2.FirstChildElement "IncrementalOrder" document = Some root ->
  from_XML OPENNN_DEBUG base document this = Returns after cout ->
  text_of root "MaximumTime" = Some t ->
  let seconds := Text.atoi t in
  - 2 ^ 31 <= seconds < 2 ^ 31 /\
  maximum_time after
  = (if accepts_maximum_time base (Text.Z2float seconds) then Text.Z2float seconds
     else maximum_time this) /\
  (accepts_maximum_time base (Text.Z2float seconds) = false ->
   In (what base "set_maximum_time") cout).
Proof.
  intros R H0 T seconds. subst seconds.
  pose proof (from_XML_returns_reads _ _ _ _ _ R H0) as H. clear R H0.
  split; [apply of_long_bounds|].
  decided_member 12%nat (@maximum_time PerformanceCalculationMethod) H T.
Qed.

(** X8: [from_XML] checks a [Step] against the bounds that the same
    document gives, since the two bounds are read first: in a debug build a
    step that is zero or larger than the [size_t] difference of the
    resulting [maximum_order] and [minimum_order] is reported and leaves the
    member as it was, any other step is stored; a build without the checks
    stores every step. *)
Theorem from_XML_checks_step_against_loaded_bounds
    document root (this after : Instance_) cout t :
  tinyxml2.FirstChildElement "IncrementalOrder" document = Some root ->
  from_XML OPENNN_DEBUG base document this = Returns after cout ->
  text_of root "Step" = Some t ->
  let new_step := SizeT.wrap (Text.atoi t) in
  let rejected :=
    OPENNN_DEBUG
    && ((new_step <=? 0)
        || (SizeT.sub (maximum_order after) (minimum_order after) <? new_step)) in
  step after = (if rejected then step this else new_step) /\
  (rejected = true -> exists what, In what cout).
Proof.
  intros R H0 T new_step rejected.
  pose proof (from_XML_returns_reads _ _ _ _ _ R H0) as H. clear R H0.
  member_at 4%nat H.
  destruct (read_members_at _ _ _ _ _ _ _ _ H) as (b & l & Hpre & Hpost).
  assert (Es : step b = step this)
    by (eapply read_members_keep; [|exact Hpre]; untouched).
  pose proof Hpost as Hbounds. rewrite <- read_members_cons in Hbounds.
  assert (Emin : minimum_order after = minimum_order b)
    by (eapply read_members_keep; [|exact Hbounds]; untouched).
  assert (Emax : maximum_order after = maximum_order b)
    by (eapply read_members_keep; [|exact Hbounds]; untouched).
  clear Hbounds. subst rejected. rewrite Emin, Emax, <- Es.
  fold (size_t_of_text t) in new_step.
  destruct (OPENNN_DEBUG
            && ((new_step <=? 0)
                || (SizeT.sub (maximum_order b) (minimum_order b) <? new_step)))
    eqn:Rej.
  - destruct (read_member_decides step root _ _ b l after cout t new_step false
                (match set_step OPENNN_DEBUG new_step b with
                 | logic_error w _ => w
                 | Done _ => EmptyString
                 end) Hpost T) as [E I].
    + discriminate.
    + intros _. cbn [snd]. fold new_step. unfold set_step.
      destruct OPENNN_DEBUG; [|discriminate]. cbn [andb] in *.
      destruct (new_step <=? 0); [reflexivity|]. cbn [orb] in Rej. rewrite Rej.
      reflexivity.
    + untouched.
    + split; [exact E|]. intros _. eexists. apply I. reflexivity.
  - destruct (read_member_decides step root _ _ b l after cout t new_step true
                EmptyString Hpost T) as [E _].
    + intros _. cbn [snd]. fold new_step. unfold set_step.
      destruct OPENNN_DEBUG; cbn [andb] in *; [|eauto].
      apply orb_false_iff in Rej. destruct Rej as [-> ->]. eauto.
    + discriminate.
    + untouched.
    + split; [exact E|discriminate].
Qed.

(** Every element that [to_XML] writes has a text. *)
Lemma to_XML_elements_have_text (this : Instance_) root :
  tinyxml2.FirstChildElement "IncrementalOrder" (to_XML base this) = Some root ->
  forall (m : Block) element,
    In m (members OPENNN_DEBUG base) ->
    tinyxml2.FirstChildElement (fst m) root = Some element ->
    tinyxml2.GetText element <> None.
Proof.
  intros R. injection R as <-. intros m element I.
  unfold members in I. cbn [In] in I.
  repeat (destruct I as [<-|I];
          [intros F; injection F as <-; discriminate|]).
  contradiction.
Qed.

Lemma to_XML_is_read_aux (this target : Instance_) :
  exists after cout,
    from_XML OPENNN_DEBUG base (to_XML base this) target = Returns after cout /\
    reserve_parameters_data after = reserve_parameters_data this /\
    reserve_performance_data after = reserve_performance_data this /\
    reserve_generalization_performance_data after
    = reserve_generalization_performance_data this /\
    reserve_minimal_parameters after = reserve_minimal_parameters this /\
    display after = display this.
Proof.
  assert (R : tinyxml2.FirstChildElement "IncrementalOrder" (to_XML base this)
              = Some (match to_XML base this with
                      | tinyxml2.XMLElement _ children :: _ => children
                      | _ => []
                      end)) by reflexivity.
  set (root := match to_XML base this with
               | tinyxml2.XMLElement _ children :: _ => children
               | _ => []
               end) in R.
  destruct (read_members_complete root (members OPENNN_DEBUG base) target []
              (to_XML_elements_have_text this root R)) as (after & cout & E).
  exists after, cout. split.
  - unfold from_XML. rewrite R. fold (@read_members PerformanceCalculationMethod).
    now rewrite E.
  - destruct (unchecked_members_read root target after [] cout E)
      as (_ & _ & F1 & F2 & F3 & F4 & F5).
    rewrite (F1 _ eq_refl), (F2 _ eq_refl), (F3 _ eq_refl), (F4 _ eq_refl),
      (F5 _ eq_refl), !flag_of_text_write_bool.
    repeat split.
Qed.

(** X9: the document that [to_XML] builds is always read: [from_XML]
    returns on it for every configuration and every object it is read into,
    without undefined behaviour and without throwing, whatever the setters
    reject, and the four reserve flags and the display flag always come back
    exactly. *)
Theorem to_XML_is_always_read (this target : Instance_) :
  exists after cout,
    from_XML OPENNN_DEBUG base (to_XML base this) target = Returns after cout /\
    reserve_parameters_data after = reserve_parameters_data this /\
    reserve_performance_data after = reserve_performance_data this /\
    reserve_generalization_performance_data after
    = reserve_generalization_performance_data this /\
    reserve_minimal_parameters after = reserve_minimal_parameters this /\
    display after = display this.
Proof. apply to_XML_is_read_aux. Qed.

(** X10: [save] followed by [load] of the same file is [to_XML] followed by
    [from_XML] into the object with its own two members reset, and returns;
    saving leaves every other file alone; and when the file cannot be
    written [save] returns all the same and changes nothing, so that a later
    [load] sees what was there before. *)
Theorem load_after_save (writable : string -> bool) file_name
    (this target : Instance_) (files : FileSystem) :
  (writable file_name = true ->
   load OPENNN_DEBUG base (save base writable file_name this files) file_name target
   = from_XML OPENNN_DEBUG base (to_XML base this) (set_default target) /\
   (exists after cout,
      load OPENNN_DEBUG base (save base writable file_name this files) file_name target
      = Returns after cout /\ display after = display this) /\
   forall other, String.eqb other file_name = false ->
     save base writable file_name this files other = files other) /\
  (writable file_name = false ->
   forall name,
     load OPENNN_DEBUG base (save base writable file_name this files) name target
     = load OPENNN_DEBUG base files name target).
Proof.
  unfold save, SaveFile. split; intros W; rewrite W.
  - assert (L : load OPENNN_DEBUG base
                  (fun name => if String.eqb name file_name
                               then Some (to_XML base this) else files name)
                  file_name target
                = from_XML OPENNN_DEBUG base (to_XML base this) (set_default target)).
    { unfold load. now rewrite String.eqb_refl. }
    split; [exact L|split].
    + rewrite L.
      destruct (to_XML_is_read_aux this (set_default target))
        as (after & cout & E & _ & _ & _ & _ & D).
      eauto.
    + intros other N. now rewrite N.
  - reflexivity.
Qed.

(** X11: the default constructor and the file constructor never show what
    the storage of [step] and [maximum_generalization_failures] held before,
    because [set_default] runs first; the XML constructor does not run it,
    so that a document without a [Step] or a
    [MaximumGeneralizationFailures] element leaves that member
    uninitialized. *)
Theorem constructors_and_uninitialized_members LoadFile file_name document
    (raw : Instance_) (a b : Z) :
  let other := assign_step a (assign_maximum_generalization_failures b raw) in
  construct other = construct raw /\
  construct_from_file OPENNN_DEBUG base LoadFile file_name other
  = construct_from_file OPENNN_DEBUG base LoadFile file_name raw /\
  forall root after cout,
    tinyxml2.FirstChildElement "IncrementalOrder" document = Some root ->
    construct_from_document OPENNN_DEBUG base document other = Returns after cout ->
    (tinyxml2.FirstChildElement "Step" root = None -> step after = a) /\
    (tinyxml2.FirstChildElement "MaximumGeneralizationFailures" root = None ->
     maximum_generalization_failures after = b).
Proof.
  intros other. split; [reflexivity|]. split; [reflexivity|].
  intros root after cout R H. unfold construct_from_document in H.
  pose proof (from_XML_tolerates_missing_elements_aux OPENNN_DEBUG base document other)
    as M.
  rewrite R in M. specialize (M _ _ H). unfold missing_members_kept in M.
  destruct M as (_ & _ & _ & _ & Ms & _ & _ & _ & _ & _ & _ & _ & _ & _ & Mf).
  split; intros N; [now rewrite (Ms N)|now rewrite (Mf N)].
Qed.


(** *** Elements that are missing, present, or without a text *)









End ReadingFacts.

(* ================================================================= *)
(** ** More theorems at concrete inputs *)

(** X1 at the example: the cap of 1000 iterations. *)
Lemma iteration_cap_example :
  exists out,
    perform_order_selection example_object example_world 1001 example_network = Some out.
Proof.
  refine (proj1 (iteration_cap_bounds_the_run example_object example_world
                   example_network _)).
  by_computation.
Defined.

(** X2 at the example: three iterations exhaust the orders 1, 3, 5. *)
Lemma range_of_orders_example :
  exists out,
    perform_order_selection example_object example_world 3 example_network = Some out.
Proof.
  refine (proj1 (range_of_orders_bounds_the_run example_object example_world
                   _ _ _ example_network)); by_computation.
Defined.



(** X3 at the example, which sets every reserve flag: with only the
    training performances and the minimal parameters reserved, the run
    returns the same three orders and the same optimum, and no
    generalization performances. *)
Lemma reserve_flags_example :
  exists everything out,
    perform_order_selection example_object example_world 10 example_network
    = Some everything /\
    perform_order_selection (with_reserve_flags false true false true example_object)
      example_world 10 example_network
    = Some out /\
    out = selected_history false true false true everything /\
    IncrementalOrderResults.order_data (returned out) = [1; 3; 5] /\
    IncrementalOrderResults.generalization_performance_data (returned out) = [] /\
    IncrementalOrderResults.optimal_order (returned out) = Some 3.
Proof.
  pose proof (proj1 (reserve_flags_select_the_history example_object example_world
                       false true false true 10 example_network)) as E.
  destruct (perform_order_selection example_object example_world 10 example_network)
    as [everything|] eqn:F; [|vm_compute in F; discriminate].
  change (with_reserve_flags true true true true example_object)
    with example_object in E.
  rewrite F in E. cbn [option_map] in E.
  exists everything, (selected_history false true false true everything).
  split; [reflexivity|]. split; [exact E|]. split; [reflexivity|].
  vm_compute in F. injection F as <-. by_computation.
Defined.

(** X4 at the example: the optimal order 3 is one of 1, 3, 5. *)
Lemma optimal_order_example :
  exists out best,
    perform_order_selection example_object example_world 10 example_network = Some out /\
    IncrementalOrderResults.optimal_order (returned out) = Some best /\
    In best (IncrementalOrderResults.order_data (returned out)) /\
    1 <= best <= 5.
Proof.
  destruct (perform_order_selection example_object example_world 10 example_network)
    as [out|] eqn:E.
  - destruct (optimal_order_was_evaluated example_object example_world 10
                example_network out E) as (best & Hb & _ & Hin & Hbounds).
    exists out, best. repeat split; auto; apply Hbounds; by_computation.
  - vm_compute in E. discriminate.
Defined.

(** X5 at a document with crossed bounds and a flag spelled [false]. *)
Lemma unchecked_members_example :
  exists after cout,
    from_XML true example_base odd_document example_object = Returns after cout /\
    minimum_order after = 5 /\
    maximum_order after = 3 /\
    display after = true.
Proof.
  destruct (from_XML true example_base odd_document example_object)
    as [after cout|what after cout|] eqn:E;
    [|vm_compute in E; discriminate|vm_compute in E; discriminate].
  exists after, cout. split; [reflexivity|].
  destruct (from_XML_stores_bounds_and_flags_unchecked true example_base odd_document
              _ example_object after cout eq_refl E)
    as (Hmin & Hmax & _ & _ & _ & _ & Hdisplay).
  rewrite (Hmin "5" eq_refl), (Hmax "3" eq_refl), (Hdisplay "false" eq_refl).
  repeat split.
Defined.

(** X6 at the same document and a base class that wants a positive trials
    number: the text [many] reads as 0, is rejected and reported. *)
Lemma rejected_value_example :
  exists after cout,
    from_XML true strict_base odd_document example_object = Returns after cout /\
    trials_number after = 1 /\
    In "set_trials_number" cout.
Proof.
  destruct (from_XML true strict_base odd_document example_object)
    as [after cout|what after cout|] eqn:E;
    [|vm_compute in E; discriminate|vm_compute in E; discriminate].
  exists after, cout. split; [reflexivity|].
  destruct (from_XML_reports_rejected_values true strict_base odd_document
              _ example_object after cout eq_refl E) as (Ht & _).
  destruct (Ht "many" eq_refl) as [Hv Hin].
  split; [exact Hv|]. apply Hin. reflexivity.
Defined.

(** X7 at the same document: a time budget written [0.5] is read as 0. *)
Lemma maximum_time_example :
  exists after cout,
    from_XML true example_base odd_document example_object = Returns after cout /\
    maximum_time after = Text.Z2float 0.
Proof.
  destruct (from_XML true example_base odd_document example_object)
    as [after cout|what after cout|] eqn:E;
    [|vm_compute in E; discriminate|vm_compute in E; discriminate].
  exists after, cout. split; [reflexivity|].
  exact (proj1 (proj2 (from_XML_reads_maximum_time_as_int true example_base odd_document
                         _ example_object after cout "0.5" eq_refl E eq_refl))).
Defined.

(** X8 at the same document, in a debug build: the step 0 is rejected,
    the step stays 2 and a line is printed. *)
Lemma rejected_step_example :
  exists after cout,
    from_XML true example_base odd_document example_object = Returns after cout /\
    step after = 2 /\
    exists what, In what cout.
Proof.
  destruct (from_XML true example_base odd_document example_object)
    as [after cout|what after cout|] eqn:E;
    [|vm_compute in E; discriminate|vm_compute in E; discriminate].
  exists after, cout. split; [reflexivity|].
  destruct (from_XML_checks_step_against_loaded_bounds true example_base odd_document
              _ example_object after cout "0" eq_refl E eq_refl) as [Hs Hin].
  split; [exact Hs|]. apply Hin. reflexivity.
Defined.

(** X13 at the example with [display] off. *)
Lemma silent_example :
  exists out,
    perform_order_selection (assign_display false example_object) example_world 10
      example_network = Some out /\
    printed out = [].
Proof.
  destruct (perform_order_selection (assign_display false example_object) example_world
              10 example_network) as [out|] eqn:E.
  - exists out. split; [reflexivity|].
    exact (silent_when_display_is_off example_object example_world 10 example_network
             out E).
  - vm_compute in E. discriminate.
Defined.

(* ================================================================= *)
(** ** Crossed bounds and the order of elements *)

Section EdgeFacts.

Variable OPENNN_DEBUG : bool.
Context {PerformanceCalculationMethod : Type}.
Variable base : @OrderSelectionAlgorithm PerformanceCalculationMethod.

(** X14: the debug check of [set_step] compares the step with the [size_t]
    difference [maximum_order - minimum_order], which wraps around when the
    minimum exceeds the maximum: with crossed bounds the check accepts every
    step from 1 up to [2 ^ 64 - (minimum_order - maximum_order)], far beyond
    the distance between the bounds. *)
Theorem set_step_with_crossed_bounds (new_step : Z)
    (this : @IncrementalOrder PerformanceCalculationMethod) :
  SizeT.in_range (minimum_order this) ->
  SizeT.in_range (maximum_order this) ->
  maximum_order this < minimum_order this ->
  0 < new_step <= SizeT.modulus - (minimum_order this - maximum_order this) ->
  set_step OPENNN_DEBUG new_step this = Done (assign_step new_step this).
Proof.
  intros Rmin Rmax C B. apply set_step_stores. intros _.
  unfold SizeT.sub, SizeT.wrap, SizeT.in_range, SizeT.modulus in *.
  rewrite <- (Z.mod_add _ 1 (2 ^ 64)) by lia.
  rewrite Z.mod_small; lia.
Qed.

Lemma read_members_same_elements root1 root2 :
  forall (ms : list (string * (string -> @IncrementalOrder PerformanceCalculationMethod
                               -> Attempt (@IncrementalOrder PerformanceCalculationMethod))))
         state,
  (forall m, In m ms ->
     text_of root1 (fst m) = text_of root2 (fst m) /\
     (tinyxml2.FirstChildElement (fst m) root1 = None <->
      tinyxml2.FirstChildElement (fst m) root2 = None)) ->
  read_members root1 ms state = read_members root2 ms state.
Proof.
  induction ms as [|m ms IH]; intros state H; [reflexivity|].
  rewrite !read_members_cons.
  rewrite IH by (intros m' I; apply H; now right). f_equal.
  destruct (H m (or_introl eq_refl)) as [T N]. unfold text_of in T.
  unfold read_member. destruct state as [[this cout]|]; [|reflexivity].
  destruct (tinyxml2.FirstChildElement (fst m) root1) as [e1|];
    destruct (tinyxml2.FirstChildElement (fst m) root2) as [e2|].
  - now rewrite T.
  - destruct N as [_ N]. discriminate (N eq_refl).
  - destruct N as [N _]. discriminate (N eq_refl).
  - reflexivity.
Qed.

(** X15: [from_XML] looks at a document only through the first element of
    each of its fifteen names below the root and through the text of that
    element: two documents that agree on these are read alike, so that the
    order of the elements, elements of other names, text between the
    elements and repeated elements make no difference. *)
Theorem from_XML_ignores_order_and_unknown_elements document1 document2 root1 root2
    (this : @IncrementalOrder PerformanceCalculationMethod) :
  tinyxml2.FirstChildElement "IncrementalOrder" document1 = Some root1 ->
  tinyxml2.FirstChildElement "IncrementalOrder" document2 = Some root2 ->
  (forall name, In name (map fst (members OPENNN_DEBUG base)) ->
     text_of root1 name = text_of root2 name /\
     (tinyxml2.FirstChildElement name root1 = None <->
      tinyxml2.FirstChildElement name root2 = None)) ->
  from_XML OPENNN_DEBUG base document1 this = from_XML OPENNN_DEBUG base document2 this.
Proof.
  intros R1 R2 H. unfold from_XML. rewrite R1, R2.
  rewrite (read_members_same_elements root1 root2); [reflexivity|].
  intros m I. apply H. now apply in_map.
Qed.

End EdgeFacts.

(** X14 at the crossed bounds 5 and 3: a step of a million is accepted. *)
Lemma crossed_bounds_step_example :
  set_step true 1000000 crossed_object = Done (assign_step 1000000 crossed_object).
Proof.
  apply (set_step_with_crossed_bounds true 1000000 crossed_object); by_computation.
Defined.

(** X15 at a reordering of a document. *)
Lemma shuffled_document_example :
  from_XML true strict_base odd_document example_object
  = from_XML true strict_base shuffled_document example_object.
Proof.
  apply (from_XML_ignores_order_and_unknown_elements true strict_base
           odd_document shuffled_document _ _ example_object eq_refl eq_refl).
  intros name I. cbn [members map fst In] in I.
  repeat (destruct I as [<-|I]; [split; [reflexivity|split; discriminate || reflexivity]|]).
  contradiction.
Defined.
